(** * The GD shim stack orchestrator (main/shim/stack.cc)

    A shallow embedding of [bluetooth::shim::Stack]: the module selection of
    [StartIdleMode] and [StartEverything], the private [Start], the teardown
    of [Stop] and the guarded accessors.  Every member function is a
    computation in a small state-trace-abort monad: the state is the member
    data of the singleton, the trace records each externally visible step in
    program order, and a failed [ASSERT] ends the run. *)

From Stdlib Require Import List Bool String Arith Lia.
Import ListNotations.
Local Open Scope string_scope.
Local Open Scope list_scope.

(** ** Module identities

    One constructor per module type named by a [modules.add<T>()] or a
    [GetInstance<T>()] in stack.cc. *)

Inductive ModuleId : Type :=
| HciHal
| HciLayer
| StorageModule
| Dumpsys
| Controller
| AclManager
| SecurityModule
| AttModule
| LeAdvertisingManager
| LeScanningManager
| L2capClassicModule
| L2capLeModule
| ConnectabilityModule
| DiscoverabilityModule
| InquiryModule
| NameModule
| NameDbModule
| PageModule
| ScanModule
| L2cap.

Definition ModuleId_eq_dec (a b : ModuleId) : {a = b} + {a <> b}.
Proof. decide equality. Defined.

Definition ModuleId_eqb (a b : ModuleId) : bool :=
  if ModuleId_eq_dec a b then true else false.

Definition mem (m : ModuleId) (l : list ModuleId) : bool :=
  existsb (ModuleId_eqb m) l.

(** Modelled from the spec: [ModuleList] of gd/module.h (not part of the
    sources at hand), the requested descriptors in registration order;
    [add<T>()] appends the identity of [T]. *)
Definition ModuleList := list ModuleId.

Definition add (m : ModuleId) (modules : ModuleList) : ModuleList :=
  modules ++ [m].

(** ** Feature toggles read through [common::InitFlags]

    The five getters called by stack.cc; the spec names them
    transportEnabled, controllerEnabled, connectionEnabled, securityEnabled
    and coreEnabled.  A run reads one fixed set of values. *)

Record InitFlags : Type := mkFlags {
  GdHciEnabled : bool;
  GdControllerEnabled : bool;
  GdAclEnabled : bool;
  GdSecurityEnabled : bool;
  GdCoreEnabled : bool
}.

(** ** Objects owned by the stack *)

(** Modelled from the spec: the Execution Context of gd/os (not part of the
    sources at hand), one worker thread and one queue of pending tasks.  A
    thread is known by the arguments of its constructor. *)
Inductive Priority : Type := NORMAL | REAL_TIME.

Record Thread : Type := mkThread {
  thread_name : string;
  thread_priority : Priority
}.

(** A task waiting in a handler's queue. *)
Definition Task := nat.

Record Handler : Type := mkHandler {
  handler_thread : option Thread;
  handler_queue : list Task
}.

(** A started module instance, as handed out by the registry. *)
Record ModuleInstance : Type := mkInstance { instance_of : ModuleId }.

(** The bridges keep what their constructors were given; nothing below looks
    inside a bridge. *)
Record Acl : Type := mkAcl { acl_handler : option Handler }.

Record Btm : Type := mkBtm {
  btm_handler : option Handler;
  btm_inquiry : option ModuleInstance
}.

(** Modelled from the spec: the Module Registry (gd/stack_manager and
    gd/module are not part of the sources at hand).  The registry owns the
    instances in the order in which they were started. *)
Record StackManager : Type := mkManager { started_modules : list ModuleId }.

Record Stack : Type := mkStack {
  is_running_ : bool;
  stack_thread_ : option Thread;
  stack_handler_ : option Handler;
  acl_ : option Acl;
  btm_ : option Btm;
  stack_manager_ : StackManager
}.

(** Modelled from the spec: the member initialisers of main/shim/stack.h
    (the header is not part of the sources at hand).  The state is Idle
    before the first Start and nothing is owned yet. *)
Definition initial : Stack :=
  mkStack false None None None None (mkManager []).

(** ** Observable steps

    One constructor per statement of stack.cc that acts on something outside
    plain member data: the mutex, [new] and [delete], calls into the thread,
    the handler and the registry, the assignments to [is_running_], and the
    two notifications to the HCI shim ([hci_on_reset_complete],
    [hci_on_shutting_down]), which are opaque here and leave the members of
    the stack alone.  Logging is left out. *)

Inductive Event : Type :=
| EvLock
| EvUnlock
| EvThreadNew
| EvStartUp (requested : ModuleList)
| EvModuleStart (m : ModuleId)
| EvHandlerNew
| EvGetInstance (m : ModuleId)
| EvBtmNew
| EvAclNew
| EvSetRunning (b : bool)
| EvHciOnResetComplete
| EvHciOnShuttingDown
| EvAclDelete (p : option Acl)
| EvBtmDelete (p : option Btm)
| EvHandlerClear (discarded : list Task)
| EvShutDown
| EvModuleStop (m : ModuleId)
| EvHandlerDelete
| EvThreadStop
| EvThreadDelete.

Definition Event_eq_dec (a b : Event) : {a = b} + {a <> b}.
Proof.
  repeat decide equality.
Defined.

(** ** The monad: state, trace of steps, fatal abort *)

Inductive Outcome (A : Type) : Type :=
| Ret (a : A) (s : Stack) (tr : list Event)
| Abort (msg : string) (tr : list Event).

Arguments Ret {A} a s tr.
Arguments Abort {A} msg tr.

Definition M (A : Type) : Type := Stack -> Outcome A.

Definition ret {A} (a : A) : M A := fun s => Ret a s [].

Definition bind {A B} (m : M A) (f : A -> M B) : M B :=
  fun s =>
    match m s with
    | Abort msg tr => Abort msg tr
    | Ret a s1 tr1 =>
        match f a s1 with
        | Abort msg tr2 => Abort msg (tr1 ++ tr2)
        | Ret b s2 tr2 => Ret b s2 (tr1 ++ tr2)
        end
    end.

Declare Scope stack_scope.
Delimit Scope stack_scope with stack.
Notation "x <- c1 ;; c2" := (bind c1 (fun x => c2))
  (at level 61, c1 at next level, right associativity) : stack_scope.
Notation "c1 ;; c2" := (bind c1 (fun _ => c2))
  (at level 61, right associativity) : stack_scope.
Local Open Scope stack_scope.

Definition emit (e : Event) : M unit := fun s => Ret tt s [e].

Definition get : M Stack := fun s => Ret s s [].

Definition modify (f : Stack -> Stack) : M unit := fun s => Ret tt (f s) [].

Definition fatal {A} (msg : string) : M A := fun _ => Abort msg [].

(** [ASSERT(cond)] and [ASSERT_LOG(cond, ...)]: abort unless [cond]. *)
Definition ASSERT (cond : bool) (msg : string) : M unit :=
  if cond then ret tt else fatal msg.

(** [std::lock_guard<std::recursive_mutex> lock(mutex_)]: taken on entry,
    released when the body returns; an abort never releases it. *)
Definition lock_guard {A} (body : M A) : M A :=
  emit EvLock ;; r <- body ;; emit EvUnlock ;; ret r.

Definition trace_of {A} (o : Outcome A) : list Event :=
  match o with
  | Ret _ _ tr => tr
  | Abort _ tr => tr
  end.

Definition set_is_running (b : bool) (s : Stack) : Stack :=
  mkStack b (stack_thread_ s) (stack_handler_ s) (acl_ s) (btm_ s)
          (stack_manager_ s).

Definition set_stack_thread (t : option Thread) (s : Stack) : Stack :=
  mkStack (is_running_ s) t (stack_handler_ s) (acl_ s) (btm_ s)
          (stack_manager_ s).

Definition set_stack_handler (h : option Handler) (s : Stack) : Stack :=
  mkStack (is_running_ s) (stack_thread_ s) h (acl_ s) (btm_ s)
          (stack_manager_ s).

Definition set_acl (a : option Acl) (s : Stack) : Stack :=
  mkStack (is_running_ s) (stack_thread_ s) (stack_handler_ s) a (btm_ s)
          (stack_manager_ s).

Definition set_btm (b : option Btm) (s : Stack) : Stack :=
  mkStack (is_running_ s) (stack_thread_ s) (stack_handler_ s) (acl_ s) b
          (stack_manager_ s).

Definition set_stack_manager (r : StackManager) (s : Stack) : Stack :=
  mkStack (is_running_ s) (stack_thread_ s) (stack_handler_ s) (acl_ s)
          (btm_ s) r.

(** [new os::Thread("gd_stack_thread", os::Thread::Priority::NORMAL)] *)
Definition gd_stack_thread : Thread := mkThread "gd_stack_thread" NORMAL.

(** ** Sample collaborators

    A small dependency table and start hooks that always succeed, to run the
    operations on. *)

Definition sample_dependencies (m : ModuleId) : list ModuleId :=
  match m with
  | HciLayer => [HciHal]
  | Controller => [HciLayer]
  | AclManager => [HciLayer; Controller]
  | L2cap => [L2capClassicModule]
  | _ => []
  end.

Definition always_starts (m : ModuleId) : bool := true.

Definition hci_only : InitFlags := mkFlags true false false false false.

Definition hci_and_acl : InitFlags := mkFlags true true true false false.

Definition everything : InitFlags := mkFlags true true true true true.

Definition core_only : InitFlags := mkFlags false false false false true.

Definition no_dependencies (m : ModuleId) : list ModuleId := [].

Definition example_handler : Handler := mkHandler (Some gd_stack_thread) [].

(** The state left by [StartEverything] under [hci_only]. *)
Definition hci_only_example : Stack :=
  mkStack true (Some gd_stack_thread) (Some example_handler) None None
          (mkManager [HciHal; HciLayer; StorageModule; Dumpsys]).

(** The state left by [StartEverything] under [everything]. *)
Definition everything_example : Stack :=
  mkStack true (Some gd_stack_thread) (Some example_handler) None
          (Some (mkBtm (Some example_handler)
                       (Some (mkInstance InquiryModule))))
          (mkManager [HciHal; HciLayer; StorageModule; Dumpsys; Controller;
                      AclManager; SecurityModule; AttModule;
                      LeAdvertisingManager; LeScanningManager;
                      L2capClassicModule; L2capLeModule;
                      ConnectabilityModule; DiscoverabilityModule;
                      InquiryModule; NameModule; NameDbModule; PageModule;
                      ScanModule; L2cap]).

(** The state left by [StartEverything] under [hci_and_acl]. *)
Definition running_example : Stack :=
  mkStack true (Some gd_stack_thread) (Some example_handler)
          (Some (mkAcl (Some example_handler))) None
          (mkManager [HciHal; HciLayer; StorageModule; Dumpsys; Controller;
                      AclManager]).

Section Registry.

(** The modules themselves are collaborators: what each one declares as its
    dependencies and whether its start hook succeeds is given from outside. *)
Variable dependencies : ModuleId -> list ModuleId.
Variable onStart : ModuleId -> bool.

(** ** Dependency Graph Resolver *)

(** Modelled from the spec: the two errors of the resolver. *)
Inductive ResolveError : Type := CyclicDependency | UnsatisfiedDependency.

(** Modelled from the spec: the requested descriptors form a set, so an
    identity added twice counts once; the first registration keeps its
    place. *)
Fixpoint unique (seen : list ModuleId) (l : ModuleList) : list ModuleId :=
  match l with
  | [] => []
  | m :: l' =>
      if mem m seen then unique seen l' else m :: unique (m :: seen) l'
  end.

Definition ResolveError_name (e : ResolveError) : string :=
  match e with
  | CyclicDependency => "CyclicDependency"
  | UnsatisfiedDependency => "UnsatisfiedDependency"
  end.

(** Modelled from the spec: a node has in-degree zero once all its
    dependencies are extracted. *)
Definition ready (done : list ModuleId) (m : ModuleId) : bool :=
  forallb (fun d => mem d done) (dependencies m).

(** Modelled from the spec: the Dependency Graph Resolver (not part of the
    sources at hand).  Repeated extraction of zero-in-degree nodes, the
    earliest registered one first; when nodes remain and none is ready,
    a dependency chain leads back to itself. *)
Fixpoint extract (fuel : nat) (pending done : list ModuleId)
  : ResolveError + list ModuleId :=
  match pending with
  | [] => inr done
  | _ :: _ =>
      match fuel with
      | O => inl CyclicDependency
      | S fuel' =>
          match find (ready done) pending with
          | None => inl CyclicDependency
          | Some m =>
              extract fuel' (remove ModuleId_eq_dec m pending) (done ++ [m])
          end
      end
  end.

(** Modelled from the spec: every dependency of a requested node is itself
    requested. *)
Definition satisfied (nodes : list ModuleId) : bool :=
  forallb (fun m => forallb (fun d => mem d nodes) (dependencies m)) nodes.

(** Modelled from the spec: [resolve]; both errors are raised before any
    module is instantiated. *)
Definition resolve (requested : ModuleList) : ResolveError + list ModuleId :=
  let nodes := unique [] requested in
  if satisfied nodes then extract (List.length nodes) nodes []
  else inl UnsatisfiedDependency.

(** ** Module Registry *)

(** Modelled from the spec: the registry takes ownership of a started
    instance, and gives it up when the module is stopped. *)
Definition register (m : ModuleId) (s : Stack) : Stack :=
  set_stack_manager
    (mkManager (started_modules (stack_manager_ s) ++ [m])) s.

Definition unregister (m : ModuleId) (s : Stack) : Stack :=
  set_stack_manager
    (mkManager (remove ModuleId_eq_dec m (started_modules (stack_manager_ s))))
    s.

(** Modelled from the spec: [start_all]; each module is constructed and
    started in the resolved order, and a failing start hook is fatal. *)
Fixpoint start_all (order : list ModuleId) : M unit :=
  match order with
  | [] => ret tt
  | m :: rest =>
      emit (EvModuleStart m) ;;
      ASSERT (onStart m) "module failed to start" ;;
      modify (register m) ;;
      start_all rest
  end.

(** Modelled from the spec: [StackManager::StartUp(modules, thread)];
    resolution errors are fatal and surface before any module starts. *)
Definition StartUp (modules : ModuleList) (thread : option Thread) : M unit :=
  emit (EvStartUp modules) ;;
  match resolve modules with
  | inl e => fatal (ResolveError_name e)
  | inr order => start_all order
  end.

(** Modelled from the spec: [get<T>], a borrowed reference to the running
    instance or not-found. *)
Definition GetInstance (m : ModuleId) (r : StackManager)
  : option ModuleInstance :=
  if mem m (started_modules r) then Some (mkInstance m) else None.

(** Modelled from the spec: the stop hook of each module of [order], in
    that order. *)
Fixpoint stop_each (order : list ModuleId) : M unit :=
  match order with
  | [] => ret tt
  | m :: rest =>
      emit (EvModuleStop m) ;;
      modify (unregister m) ;;
      stop_each rest
  end.

(** Modelled from the spec: [stop_all], the stop hooks run in exactly the
    reverse of the order in which the modules were started. *)
Definition ShutDown : M unit :=
  emit EvShutDown ;;
  s <- get ;;
  stop_each (rev (started_modules (stack_manager_ s))).

(** ** Execution context *)

(** Modelled from the spec: [stack_handler_->Clear()], the pending tasks
    are discarded.  Calling through a null pointer ends the run. *)
Definition Handler_Clear : M unit :=
  s <- get ;;
  match stack_handler_ s with
  | None => fatal "null dereference"
  | Some h =>
      emit (EvHandlerClear (handler_queue h)) ;;
      modify (set_stack_handler (Some (mkHandler (handler_thread h) [])))
  end.

(** Modelled from the spec: [stack_thread_->Stop()], which blocks until
    the worker has exited. *)
Definition Thread_Stop : M unit :=
  s <- get ;;
  match stack_thread_ s with
  | None => fatal "null dereference"
  | Some _ => emit EvThreadStop
  end.

(** Modelled from the spec: [submit], a task reaching the queue of a
    handler from outside the stack. *)
Definition Post (t : Task) (h : Handler) : Handler :=
  mkHandler (handler_thread h) (handler_queue h ++ [t]).

(** ** Stack *)

(** [stack_manager_.GetInstance<T>()] as called from the stack. *)
Definition get_instance (m : ModuleId) : M (option ModuleInstance) :=
  emit (EvGetInstance m) ;;
  s <- get ;;
  ret (GetInstance m (stack_manager_ s)).

Definition is_some {A} (o : option A) : bool :=
  match o with Some _ => true | None => false end.

(** [ASSERT(stack_manager_.GetInstance<T>() != nullptr)] *)
Definition ASSERT_instance (m : ModuleId) : M unit :=
  p <- get_instance m ;;
  ASSERT (is_some p) "GetInstance != nullptr".

(** [Stack::Start(ModuleList* modules)] *)
Definition Start (modules : ModuleList) : M unit :=
  s <- get ;;
  ASSERT (negb (is_running_ s)) "Start Gd stack already running" ;;
  emit EvThreadNew ;;
  modify (set_stack_thread (Some gd_stack_thread)) ;;
  s <- get ;;
  StartUp modules (stack_thread_ s) ;;
  emit EvHandlerNew ;;
  s <- get ;;
  modify (set_stack_handler (Some (mkHandler (stack_thread_ s) []))).

(** [Stack::StartIdleMode()] *)
Definition StartIdleMode : M unit :=
  lock_guard (
    s <- get ;;
    ASSERT (negb (is_running_ s)) "StartIdleMode Gd stack already running" ;;
    let modules : ModuleList := [] in
    let modules := add StorageModule modules in
    Start modules ;;
    ASSERT_instance StorageModule ;;
    emit (EvSetRunning true) ;;
    modify (set_is_running true)).

(** The module list built by [Stack::StartEverything()] before it calls
    [Start]. *)
Definition StartEverything_modules (flags : InitFlags) : ModuleList :=
  let modules : ModuleList := [] in
  let modules :=
    if GdHciEnabled flags then
      add Dumpsys (add StorageModule (add HciLayer (add HciHal modules)))
    else modules in
  let modules :=
    if GdControllerEnabled flags then add Controller modules else modules in
  let modules :=
    if GdAclEnabled flags then add AclManager modules else modules in
  let modules :=
    if GdSecurityEnabled flags then add SecurityModule modules
    else modules in
  let modules :=
    if GdCoreEnabled flags then
      add L2cap (add StorageModule (add ScanModule (add PageModule
        (add NameDbModule (add NameModule (add InquiryModule
          (add DiscoverabilityModule (add ConnectabilityModule
            (add L2capLeModule (add L2capClassicModule
              (add LeScanningManager (add LeAdvertisingManager
                (add AttModule modules)))))))))))))
    else modules in
  modules.

(** [Stack::StartEverything()] *)
Definition StartEverything (flags : InitFlags) : M unit :=
  lock_guard (
    s <- get ;;
    ASSERT (negb (is_running_ s)) "StartEverything Gd stack already running" ;;
    Start (StartEverything_modules flags) ;;
    ASSERT_instance StorageModule ;;
    ASSERT_instance Dumpsys ;;
    (if GdCoreEnabled flags then
       ASSERT_instance L2cap ;;
       inquiry <- get_instance InquiryModule ;;
       emit EvBtmNew ;;
       s <- get ;;
       modify (set_btm (Some (mkBtm (stack_handler_ s) inquiry)))
     else ret tt) ;;
    (if GdAclEnabled flags then
       if negb (GdCoreEnabled flags) then
         emit EvAclNew ;;
         s <- get ;;
         modify (set_acl (Some (mkAcl (stack_handler_ s))))
       else ret tt
     else ret tt) ;;
    emit (EvSetRunning true) ;;
    modify (set_is_running true) ;;
    (if negb (GdCoreEnabled flags) then emit EvHciOnResetComplete
     else ret tt)).

(** [Stack::Stop()] *)
Definition Stop (flags : InitFlags) : M unit :=
  lock_guard (
    (if negb (GdCoreEnabled flags) then emit EvHciOnShuttingDown
     else ret tt) ;;
    s <- get ;;
    ASSERT (is_running_ s) "Stop Gd stack not running" ;;
    emit (EvSetRunning false) ;;
    modify (set_is_running false) ;;
    s <- get ;;
    emit (EvAclDelete (acl_ s)) ;;
    modify (set_acl None) ;;
    s <- get ;;
    emit (EvBtmDelete (btm_ s)) ;;
    modify (set_btm None) ;;
    Handler_Clear ;;
    ShutDown ;;
    emit EvHandlerDelete ;;
    modify (set_stack_handler None) ;;
    Thread_Stop ;;
    emit EvThreadDelete ;;
    modify (set_stack_thread None)).

(** [Stack::IsRunning()] *)
Definition IsRunning : M bool :=
  lock_guard (s <- get ;; ret (is_running_ s)).

(** [Stack::GetStackManager()] *)
Definition GetStackManager : M StackManager :=
  lock_guard (
    s <- get ;;
    ASSERT (is_running_ s) "is_running_" ;;
    ret (stack_manager_ s)).

(** [Stack::GetAcl()] *)
Definition GetAcl : M (option Acl) :=
  lock_guard (
    s <- get ;;
    ASSERT (is_running_ s) "is_running_" ;;
    ret (acl_ s)).

(** [Stack::GetBtm()] *)
Definition GetBtm : M (option Btm) :=
  lock_guard (
    s <- get ;;
    ASSERT (is_running_ s) "is_running_" ;;
    ret (btm_ s)).

(** [Stack::GetHandler()] *)
Definition GetHandler : M (option Handler) :=
  lock_guard (
    s <- get ;;
    ASSERT (is_running_ s) "is_running_" ;;
    ret (stack_handler_ s)).

(** [GetModule<T>()]: the registry accessor followed by the typed lookup. *)
Definition GetModule (m : ModuleId) : M (option ModuleInstance) :=
  r <- GetStackManager ;;
  ret (GetInstance m r).

(** ** States the singleton can be in

    From the initial state, through completed calls of the public
    operations and through tasks posted to the handler from outside. *)
Inductive Reachable : Stack -> Prop :=
| Reachable_initial : Reachable initial
| Reachable_StartIdleMode : forall s s' tr,
    Reachable s -> StartIdleMode s = Ret tt s' tr -> Reachable s'
| Reachable_StartEverything : forall flags s s' tr,
    Reachable s -> StartEverything flags s = Ret tt s' tr -> Reachable s'
| Reachable_Stop : forall flags s s' tr,
    Reachable s -> Stop flags s = Ret tt s' tr -> Reachable s'
| Reachable_Post : forall s h t,
    Reachable s -> stack_handler_ s = Some h ->
    Reachable (set_stack_handler (Some (Post t h)) s).


(** ** What the runs look like, step by step *)

(** The part of a resolved order whose start hooks are entered: everything
    up to and including the first module that fails to start. *)
Fixpoint attempted (order : list ModuleId) : list ModuleId :=
  match order with
  | [] => []
  | m :: rest => m :: (if onStart m then attempted rest else [])
  end.

(** The steps of a complete [StartEverything] that started [order]. *)
Definition StartEverything_steps (flags : InitFlags) (order : list ModuleId)
  : list Event :=
  [EvLock; EvThreadNew; EvStartUp (StartEverything_modules flags)]
  ++ map EvModuleStart order
  ++ [EvHandlerNew; EvGetInstance StorageModule; EvGetInstance Dumpsys]
  ++ (if GdCoreEnabled flags
      then [EvGetInstance L2cap; EvGetInstance InquiryModule; EvBtmNew]
      else [])
  ++ (if GdAclEnabled flags && negb (GdCoreEnabled flags)
      then [EvAclNew] else [])
  ++ [EvSetRunning true]
  ++ (if negb (GdCoreEnabled flags) then [EvHciOnResetComplete] else [])
  ++ [EvUnlock].

(** The steps of a complete [StartIdleMode]. *)
Definition StartIdleMode_steps : list Event :=
  [EvLock; EvThreadNew; EvStartUp [StorageModule];
   EvModuleStart StorageModule; EvHandlerNew;
   EvGetInstance StorageModule; EvSetRunning true; EvUnlock].

(** The steps of a complete [Stop] of the state [s] whose handler is [h]. *)
Definition Stop_steps (flags : InitFlags) (s : Stack) (h : Handler)
  : list Event :=
  [EvLock]
  ++ (if negb (GdCoreEnabled flags) then [EvHciOnShuttingDown] else [])
  ++ [EvSetRunning false; EvAclDelete (acl_ s); EvBtmDelete (btm_ s);
      EvHandlerClear (handler_queue h); EvShutDown]
  ++ map EvModuleStop (rev (started_modules (stack_manager_ s)))
  ++ [EvHandlerDelete; EvThreadStop; EvThreadDelete; EvUnlock].

(** Equality test on steps. *)
Definition Event_eqb (a b : Event) : bool :=
  if Event_eq_dec a b then true else false.

(** [precedes e1 e2 tr]: some occurrence of [e1] in [tr] comes before some
    occurrence of [e2]. *)
Fixpoint precedes (e1 e2 : Event) (tr : list Event) : bool :=
  match tr with
  | [] => false
  | x :: rest =>
      (Event_eqb x e1 && existsb (Event_eqb e2) rest) || precedes e1 e2 rest
  end.

(** The teardown order with the state marked Idle as the last step: both
    bridges, the queue, the registry and the thread join all come before
    the flag is cleared. *)
Definition Stop_marks_idle_last (s : Stack) (h : Handler) (tr : list Event)
  : bool :=
  precedes (EvAclDelete (acl_ s)) (EvBtmDelete (btm_ s)) tr
  && precedes (EvBtmDelete (btm_ s)) (EvHandlerClear (handler_queue h)) tr
  && precedes (EvHandlerClear (handler_queue h)) EvShutDown tr
  && precedes EvShutDown EvThreadStop tr
  && precedes EvThreadStop (EvSetRunning false) tr.

(** The state [Start] leaves behind once the modules of [order] run. *)
Definition Start_state (order : list ModuleId) (s : Stack) : Stack :=
  mkStack (is_running_ s) (Some gd_stack_thread)
          (Some (mkHandler (Some gd_stack_thread) []))
          (acl_ s) (btm_ s)
          (mkManager (started_modules (stack_manager_ s) ++ order)).

(** The state a complete [StartEverything] leaves behind. *)
Definition StartEverything_state (flags : InitFlags) (order : list ModuleId)
  (s : Stack) : Stack :=
  let handler := Some (mkHandler (Some gd_stack_thread) []) in
  let registry := mkManager (started_modules (stack_manager_ s) ++ order) in
  mkStack true (Some gd_stack_thread) handler
          (if GdAclEnabled flags && negb (GdCoreEnabled flags)
           then Some (mkAcl handler) else acl_ s)
          (if GdCoreEnabled flags
           then Some (mkBtm handler (GetInstance InquiryModule registry))
           else btm_ s)
          registry.

(** The steps up to the return of [Start]. *)
Definition Start_steps (modules : ModuleList) (order : list ModuleId)
  : list Event :=
  [EvLock; EvThreadNew; EvStartUp modules]
  ++ map EvModuleStart order ++ [EvHandlerNew].

(** The state a complete [StartIdleMode] leaves behind. *)
Definition StartIdleMode_state (order : list ModuleId) (s : Stack) : Stack :=
  mkStack true (Some gd_stack_thread)
          (Some (mkHandler (Some gd_stack_thread) []))
          (acl_ s) (btm_ s)
          (mkManager (started_modules (stack_manager_ s) ++ order)).

(** Proof steps shared by the accessors. *)
Ltac run_accessor Hrun :=
  unfold GetModule, GetStackManager, GetAcl, GetBtm, GetHandler, lock_guard;
  unfold bind, emit, get, ASSERT, ret, fatal;
  rewrite Hrun; reflexivity.

(** What every state the singleton can be in satisfies: a Running stack
    owns its thread and its handler and holds at most one bridge; a stack
    that is not Running owns nothing. *)
Definition Invariant (s : Stack) : Prop :=
  if is_running_ s
  then (exists t h, stack_thread_ s = Some t /\ stack_handler_ s = Some h)
       /\ (acl_ s = None \/ btm_ s = None)
  else s = initial.

(** Membership in a script written with [++]. *)
Ltac in_steps :=
  repeat (rewrite in_app_iff || cbn [In]); tauto.



(** The toggles that put a module on the list of [StartEverything]. *)
Definition requested_under (flags : InitFlags) (m : ModuleId) : bool :=
  match m with
  | HciHal | HciLayer | Dumpsys => GdHciEnabled flags
  | StorageModule => GdHciEnabled flags || GdCoreEnabled flags
  | Controller => GdControllerEnabled flags
  | AclManager => GdAclEnabled flags
  | SecurityModule => GdSecurityEnabled flags
  | AttModule | LeAdvertisingManager | LeScanningManager
  | L2capClassicModule | L2capLeModule | ConnectabilityModule
  | DiscoverabilityModule | InquiryModule | NameModule | NameDbModule
  | PageModule | ScanModule | L2cap => GdCoreEnabled flags
  end.

Definition b2n (b : bool) : nat := if b then 1 else 0.

(** The steps that release or stop something. *)
Definition is_teardown (e : Event) : bool :=
  match e with
  | EvSetRunning false | EvHciOnShuttingDown | EvAclDelete _ | EvBtmDelete _
  | EvHandlerClear _ | EvShutDown | EvModuleStop _ | EvHandlerDelete
  | EvThreadStop | EvThreadDelete => true
  | _ => false
  end.

(** The steps that create or start something. *)
Definition is_startup (e : Event) : bool :=
  match e with
  | EvSetRunning true | EvHciOnResetComplete | EvThreadNew | EvStartUp _
  | EvModuleStart _ | EvHandlerNew | EvBtmNew | EvAclNew => true
  | _ => false
  end.

(** The steps of [Stop] on any state, as far as the run gets: it ends at the
    running check when the stack is not Running, and at the first call
    through a null pointer otherwise. *)
Definition Stop_trace (flags : InitFlags) (s : Stack) : list Event :=
  [EvLock]
  ++ (if negb (GdCoreEnabled flags) then [EvHciOnShuttingDown] else [])
  ++ (if is_running_ s then
        [EvSetRunning false; EvAclDelete (acl_ s); EvBtmDelete (btm_ s)]
        ++ match stack_handler_ s with
           | None => []
           | Some h =>
               [EvHandlerClear (handler_queue h); EvShutDown]
               ++ map EvModuleStop (rev (started_modules (stack_manager_ s)))
               ++ [EvHandlerDelete]
               ++ match stack_thread_ s with
                  | None => []
                  | Some _ => [EvThreadStop; EvThreadDelete; EvUnlock]
                  end
           end
      else []).

(** The handler of a Running stack is bound to the stack's own thread. *)
Definition Bound (s : Stack) : Prop :=
  is_running_ s = true ->
  stack_thread_ s = Some gd_stack_thread
  /\ exists queue,
       stack_handler_ s = Some (mkHandler (Some gd_stack_thread) queue).

(** ** Membership *)

Lemma mem_In (m : ModuleId) (l : list ModuleId) :
  mem m l = true <-> In m l.
Proof.
  unfold mem. rewrite existsb_exists. split.
  - intros [x [Hx Heq]]. unfold ModuleId_eqb in Heq.
    destruct (ModuleId_eq_dec m x); [subst; assumption | discriminate].
  - intros H. exists m. split; [assumption |].
    unfold ModuleId_eqb. destruct (ModuleId_eq_dec m m); congruence.
Qed.

Lemma mem_ext (m : ModuleId) (l1 l2 : list ModuleId) :
  (In m l1 <-> In m l2) -> mem m l1 = mem m l2.
Proof.
  intros H.
  destruct (mem m l1) eqn:E1, (mem m l2) eqn:E2; try reflexivity.
  - apply mem_In, H, mem_In in E1. congruence.
  - apply mem_In, H, mem_In in E2. congruence.
Qed.

Lemma unique_In (l : ModuleList) :
  forall seen m, In m (unique seen l) <-> In m l /\ ~ In m seen.
Proof.
  induction l as [|a l IH]; intros seen m; simpl.
  - tauto.
  - destruct (mem a seen) eqn:E.
    + apply mem_In in E. rewrite IH. split.
      * intros [H1 H2]. tauto.
      * intros [[H1 | H1] H2]; [subst; contradiction | tauto].
    + assert (Hn : ~ In a seen).
      { intros H. apply mem_In in H. congruence. }
      simpl. rewrite IH. simpl. split.
      * intros [H | [H1 H2]]; [subst; tauto | tauto].
      * intros [[H | H] H2]; [tauto |].
        destruct (ModuleId_eq_dec a m); [tauto | right; tauto].
Qed.

Lemma extract_In (fuel : nat) :
  forall pending done order,
    extract fuel pending done = inr order ->
    forall m, In m order <-> In m done \/ In m pending.
Proof.
  induction fuel as [|fuel IH]; intros pending done order H m.
  - destruct pending; simpl in H; [| discriminate].
    inversion H; subst. simpl. tauto.
  - destruct pending as [|p pending].
    + simpl in H. inversion H; subst. simpl. tauto.
    + cbn [extract] in H.
      destruct (find (ready done) (p :: pending)) as [x|] eqn:F;
        [| discriminate].
      apply find_some in F. destruct F as [Fin _].
      rewrite (IH _ _ _ H m). rewrite in_app_iff.
      split.
      * intros [[Hd | [Hx | []]] | Hr].
        -- tauto.
        -- subst. right. exact Fin.
        -- apply in_remove in Hr. right. tauto.
      * intros [Hd | Hp]; [tauto |].
        destruct (ModuleId_eq_dec m x) as [-> | Hne].
        -- left. right. left. reflexivity.
        -- right. apply in_in_remove; assumption.
Qed.

Lemma resolve_In (requested : ModuleList) (order : list ModuleId) :
  resolve requested = inr order ->
  forall m, In m order <-> In m requested.
Proof.
  unfold resolve. intros H m.
  destruct (satisfied (unique [] requested)); [| discriminate].
  rewrite (extract_In _ _ _ _ H m), unique_In. simpl. tauto.
Qed.

Lemma resolve_mem (requested : ModuleList) (order : list ModuleId) :
  resolve requested = inr order ->
  forall m, mem m order = mem m requested.
Proof.
  intros H m. apply mem_ext. apply resolve_In. assumption.
Qed.

(** ** Running the registry *)

Lemma start_all_run (order : list ModuleId) :
  forall s,
    start_all order s =
    if forallb onStart order
    then Ret tt
           (set_stack_manager
              (mkManager (started_modules (stack_manager_ s) ++ order)) s)
           (map EvModuleStart order)
    else Abort "module failed to start" (map EvModuleStart (attempted order)).
Proof.
  induction order as [|m rest IH]; intros s.
  - destruct s as [r t h a b [st]]. cbn. rewrite app_nil_r. reflexivity.
  - cbn [start_all forallb attempted map].
    unfold bind at 1. unfold emit at 1.
    unfold bind at 1. unfold ASSERT.
    destruct (onStart m); cbn [andb].
    + unfold ret at 1. unfold bind at 1. unfold modify at 1.
      rewrite IH. destruct (forallb onStart rest).
      * destruct s as [r t h a b [st]]. cbn. rewrite <- app_assoc.
        reflexivity.
      * reflexivity.
    + reflexivity.
Qed.

Lemma remove_all (order : list ModuleId) :
  forall l,
    (forall x, In x l -> In x order) ->
    fold_left (fun acc m => remove ModuleId_eq_dec m acc) order l = [].
Proof.
  induction order as [|m rest IH]; intros l Hl.
  - destruct l as [|x l]; [reflexivity |].
    exfalso. apply (Hl x). left. reflexivity.
  - cbn [fold_left]. apply IH. intros x Hx.
    apply in_remove in Hx. destruct Hx as [Hx Hne].
    destruct (Hl x Hx) as [Heq | Hin]; [congruence | assumption].
Qed.

Lemma stop_each_run (order : list ModuleId) :
  forall s,
    stop_each order s =
    Ret tt
      (set_stack_manager
         (mkManager
            (fold_left (fun acc m => remove ModuleId_eq_dec m acc) order
                       (started_modules (stack_manager_ s)))) s)
      (map EvModuleStop order).
Proof.
  induction order as [|m rest IH]; intros s.
  - destruct s as [r t h a b [st]]. reflexivity.
  - cbn [stop_each fold_left map].
    unfold bind at 1. unfold emit at 1.
    unfold bind at 1. unfold modify at 1.
    rewrite IH. destruct s as [r t h a b [st]]. reflexivity.
Qed.

Lemma ShutDown_run (s : Stack) :
  ShutDown s =
  Ret tt (set_stack_manager (mkManager []) s)
      (EvShutDown :: map EvModuleStop (rev (started_modules (stack_manager_ s)))).
Proof.
  unfold ShutDown. unfold bind at 1. unfold emit at 1.
  unfold bind at 1. unfold get at 1.
  rewrite stop_each_run. rewrite remove_all.
  - reflexivity.
  - intros x Hx. apply in_rev in Hx. exact Hx.
Qed.

(** ** Running [Start] *)

Lemma Start_idle (modules : ModuleList) (s : Stack) :
  is_running_ s = false ->
  Start modules s =
  match resolve modules with
  | inl e => Abort (ResolveError_name e) [EvThreadNew; EvStartUp modules]
  | inr order =>
      if forallb onStart order
      then Ret tt (Start_state order s)
             ([EvThreadNew; EvStartUp modules]
              ++ map EvModuleStart order ++ [EvHandlerNew])
      else Abort "module failed to start"
             ([EvThreadNew; EvStartUp modules]
              ++ map EvModuleStart (attempted order))
  end.
Proof.
  intros Hidle. destruct s as [r t h a b [st]]. cbn in Hidle. subst r.
  unfold Start, StartUp, bind, emit, get, modify, ASSERT, ret, fatal.
  cbn -[resolve start_all].
  destruct (resolve modules) as [e | order].
  - reflexivity.
  - rewrite start_all_run.
    destruct (forallb onStart order); reflexivity.
Qed.

(** ** Running [StartEverything] and [StartIdleMode] from an Idle state *)

Lemma StartEverything_idle (flags : InitFlags) (s : Stack) :
  is_running_ s = false ->
  StartEverything flags s =
  let modules := StartEverything_modules flags in
  match resolve modules with
  | inl e =>
      Abort (ResolveError_name e) [EvLock; EvThreadNew; EvStartUp modules]
  | inr order =>
      let registry :=
        mkManager (started_modules (stack_manager_ s) ++ order) in
      if negb (forallb onStart order) then
        Abort "module failed to start"
          ([EvLock; EvThreadNew; EvStartUp modules]
           ++ map EvModuleStart (attempted order))
      else if negb (is_some (GetInstance StorageModule registry)) then
        Abort "GetInstance != nullptr"
          (Start_steps modules order ++ [EvGetInstance StorageModule])
      else if negb (is_some (GetInstance Dumpsys registry)) then
        Abort "GetInstance != nullptr"
          (Start_steps modules order
           ++ [EvGetInstance StorageModule; EvGetInstance Dumpsys])
      else if GdCoreEnabled flags
              && negb (is_some (GetInstance L2cap registry)) then
        Abort "GetInstance != nullptr"
          (Start_steps modules order
           ++ [EvGetInstance StorageModule; EvGetInstance Dumpsys;
               EvGetInstance L2cap])
      else
        Ret tt (StartEverything_state flags order s)
            (StartEverything_steps flags order)
  end.
Proof.
  intros Hidle. cbv zeta.
  unfold StartEverything, lock_guard, ASSERT_instance, get_instance.
  unfold bind, emit, get, modify, ASSERT, ret, fatal.
  rewrite Hidle. cbn [negb].
  rewrite (Start_idle _ s Hidle).
  destruct (resolve (StartEverything_modules flags)) as [e | order];
    [reflexivity |].
  destruct (forallb onStart order); [| reflexivity].
  unfold StartEverything_steps, StartEverything_state, Start_steps.
  cbn [negb Start_state stack_manager_ started_modules stack_handler_].
  unfold GetInstance. cbn [started_modules].
  destruct (mem StorageModule _); cbn [is_some negb];
    [| rewrite <- !app_assoc; reflexivity].
  destruct (mem Dumpsys _); cbn [is_some negb];
    [| rewrite <- !app_assoc; reflexivity].
  destruct flags as [hci ctl acl sec core]. cbn [GdCoreEnabled GdAclEnabled].
  destruct core; cbn [andb negb].
  - destruct (mem L2cap _); cbn [is_some negb].
    + destruct acl; cbn; rewrite <- ?app_assoc; reflexivity.
    + cbn. rewrite <- !app_assoc. reflexivity.
  - destruct acl; cbn; rewrite <- ?app_assoc; reflexivity.
Qed.

Lemma StartEverything_running (flags : InitFlags) (s : Stack) :
  is_running_ s = true ->
  StartEverything flags s =
  Abort "StartEverything Gd stack already running" [EvLock].
Proof.
  intros Hrun. unfold StartEverything, lock_guard.
  unfold bind at 1. unfold emit at 1.
  unfold bind at 1. unfold get at 1.
  unfold bind at 1. rewrite Hrun. reflexivity.
Qed.

Lemma resolve_storage_only (order : list ModuleId) :
  resolve [StorageModule] = inr order ->
  dependencies StorageModule = [] /\ order = [StorageModule].
Proof.
  unfold resolve, satisfied, ready. cbn [unique mem existsb forallb].
  cbn [List.length extract find]. unfold ready.
  destruct (dependencies StorageModule) as [|d ds].
  - cbn. intros H. inversion H. split; reflexivity.
  - cbn [forallb mem existsb andb].
    match goal with
    | |- (if ?c then _ else _) = _ -> _ => destruct c
    end; intros H; discriminate.
Qed.

Lemma StartIdleMode_idle (s : Stack) :
  is_running_ s = false ->
  StartIdleMode s =
  match resolve [StorageModule] with
  | inl e =>
      Abort (ResolveError_name e)
        [EvLock; EvThreadNew; EvStartUp [StorageModule]]
  | inr order =>
      let registry :=
        mkManager (started_modules (stack_manager_ s) ++ order) in
      if negb (forallb onStart order) then
        Abort "module failed to start"
          ([EvLock; EvThreadNew; EvStartUp [StorageModule]]
           ++ map EvModuleStart (attempted order))
      else if negb (is_some (GetInstance StorageModule registry)) then
        Abort "GetInstance != nullptr"
          (Start_steps [StorageModule] order ++ [EvGetInstance StorageModule])
      else
        Ret tt (StartIdleMode_state order s)
            (Start_steps [StorageModule] order
             ++ [EvGetInstance StorageModule; EvSetRunning true; EvUnlock])
  end.
Proof.
  intros Hidle. cbv zeta.
  unfold StartIdleMode, lock_guard, ASSERT_instance, get_instance, add.
  unfold bind, emit, get, modify, ASSERT, ret, fatal.
  rewrite Hidle. cbn [negb app].
  rewrite (Start_idle _ s Hidle).
  destruct (resolve [StorageModule]) as [e | order]; [reflexivity |].
  destruct (forallb onStart order); [| reflexivity].
  unfold StartIdleMode_state, Start_steps.
  cbn [negb Start_state stack_manager_ started_modules stack_handler_].
  unfold GetInstance. cbn [started_modules].
  destruct (mem StorageModule _); cbn [is_some negb];
    cbn; rewrite <- ?app_assoc; reflexivity.
Qed.

Lemma StartIdleMode_running (s : Stack) :
  is_running_ s = true ->
  StartIdleMode s = Abort "StartIdleMode Gd stack already running" [EvLock].
Proof.
  intros Hrun. unfold StartIdleMode, lock_guard.
  unfold bind at 1. unfold emit at 1.
  unfold bind at 1. unfold get at 1.
  unfold bind at 1. rewrite Hrun. reflexivity.
Qed.

(** ** Running [Stop] *)

Lemma Stop_running (flags : InitFlags) (s : Stack) (t : Thread)
  (h : Handler) :
  is_running_ s = true ->
  stack_thread_ s = Some t ->
  stack_handler_ s = Some h ->
  Stop flags s = Ret tt initial (Stop_steps flags s h).
Proof.
  intros Hrun Ht Hh.
  destruct s as [r ot oh a b [st]]. cbn in Hrun, Ht, Hh. subst r ot oh.
  unfold Stop, lock_guard, Handler_Clear, Thread_Stop.
  unfold bind at 1. unfold emit at 1.
  unfold Stop_steps.
  destruct (GdCoreEnabled flags); cbn -[ShutDown];
    unfold bind, emit, get, modify, ret; cbn -[ShutDown];
    rewrite ShutDown_run; cbn; rewrite <- ?app_assoc; reflexivity.
Qed.

Lemma Stop_idle (flags : InitFlags) (s : Stack) :
  is_running_ s = false ->
  Stop flags s =
  Abort "Stop Gd stack not running"
    (EvLock :: if negb (GdCoreEnabled flags) then [EvHciOnShuttingDown]
               else []).
Proof.
  intros Hidle. unfold Stop, lock_guard.
  destruct (GdCoreEnabled flags); cbn [negb];
    unfold bind at 1; unfold emit at 1;
    unfold bind at 1; unfold bind at 1;
    unfold emit at 1, ret at 1; unfold bind at 1; unfold get at 1;
    unfold bind at 1; rewrite Hidle; reflexivity.
Qed.

(** ** Running the accessors *)

Lemma IsRunning_run (s : Stack) :
  IsRunning s = Ret (is_running_ s) s [EvLock; EvUnlock].
Proof. reflexivity. Qed.

Lemma GetStackManager_run (s : Stack) :
  GetStackManager s =
  if is_running_ s then Ret (stack_manager_ s) s [EvLock; EvUnlock]
  else Abort "is_running_" [EvLock].
Proof. destruct (is_running_ s) eqn:Hrun; run_accessor Hrun. Qed.

Lemma GetAcl_run (s : Stack) :
  GetAcl s =
  if is_running_ s then Ret (acl_ s) s [EvLock; EvUnlock]
  else Abort "is_running_" [EvLock].
Proof. destruct (is_running_ s) eqn:Hrun; run_accessor Hrun. Qed.

Lemma GetBtm_run (s : Stack) :
  GetBtm s =
  if is_running_ s then Ret (btm_ s) s [EvLock; EvUnlock]
  else Abort "is_running_" [EvLock].
Proof. destruct (is_running_ s) eqn:Hrun; run_accessor Hrun. Qed.

Lemma GetHandler_run (s : Stack) :
  GetHandler s =
  if is_running_ s then Ret (stack_handler_ s) s [EvLock; EvUnlock]
  else Abort "is_running_" [EvLock].
Proof. destruct (is_running_ s) eqn:Hrun; run_accessor Hrun. Qed.

Lemma GetModule_run (m : ModuleId) (s : Stack) :
  GetModule m s =
  if is_running_ s
  then Ret (GetInstance m (stack_manager_ s)) s [EvLock; EvUnlock]
  else Abort "is_running_" [EvLock].
Proof. destruct (is_running_ s) eqn:Hrun; run_accessor Hrun. Qed.

(** ** What holds in every state the singleton can be in *)

(** What a returning [StartEverything] did, read off its equation. *)
Lemma StartEverything_Ret (flags : InitFlags) (s s' : Stack)
  (tr : list Event) :
  StartEverything flags s = Ret tt s' tr ->
  is_running_ s = false /\
  exists order,
    resolve (StartEverything_modules flags) = inr order /\
    forallb onStart order = true /\
    s' = StartEverything_state flags order s /\
    tr = StartEverything_steps flags order.
Proof.
  intros H. destruct (is_running_ s) eqn:Hrun.
  - rewrite (StartEverything_running _ _ Hrun) in H. discriminate.
  - split; [reflexivity |].
    rewrite (StartEverything_idle _ _ Hrun) in H. cbv zeta in H.
    destruct (resolve (StartEverything_modules flags)) as [e | order];
      [discriminate |].
    exists order. split; [reflexivity |].
    destruct (forallb onStart order); [| discriminate].
    cbn [negb] in H.
    repeat match type of H with
           | (if ?c then _ else _) = _ => destruct c; [discriminate |]
           end.
    inversion H. auto.
Qed.

(** What a returning [StartIdleMode] did. *)
Lemma StartIdleMode_Ret (s s' : Stack) (tr : list Event) :
  StartIdleMode s = Ret tt s' tr ->
  is_running_ s = false /\
  dependencies StorageModule = [] /\
  onStart StorageModule = true /\
  s' = StartIdleMode_state [StorageModule] s /\
  tr = StartIdleMode_steps.
Proof.
  intros H. destruct (is_running_ s) eqn:Hrun.
  - rewrite (StartIdleMode_running _ Hrun) in H. discriminate.
  - split; [reflexivity |].
    rewrite (StartIdleMode_idle _ Hrun) in H. cbv zeta in H.
    destruct (resolve [StorageModule]) as [e | order] eqn:R;
      [discriminate |].
    apply resolve_storage_only in R. destruct R as [Hdeps ->].
    split; [assumption |].
    cbn [forallb] in H. rewrite andb_true_r in H.
    destruct (onStart StorageModule); [| discriminate].
    split; [reflexivity |].
    cbn [negb] in H.
    repeat match type of H with
           | (if ?c then _ else _) = _ => destruct c; [discriminate |]
           end.
    inversion H. auto.
Qed.

(** What a returning [Stop] did. *)
Lemma Stop_Ret (flags : InitFlags) (s s' : Stack) (tr : list Event) :
  Stop flags s = Ret tt s' tr ->
  is_running_ s = true /\ s' = initial /\
  exists h, stack_handler_ s = Some h /\ tr = Stop_steps flags s h.
Proof.
  intros H. destruct (is_running_ s) eqn:Hrun.
  - split; [reflexivity |].
    destruct (stack_handler_ s) as [h|] eqn:Hh.
    + destruct (stack_thread_ s) as [t|] eqn:Ht.
      * rewrite (Stop_running flags s t h Hrun Ht Hh) in H.
        inversion H. split; [reflexivity |]. exists h. auto.
      * exfalso. revert H.
        destruct s as [r ot oh a b [st]]. cbn in Hrun, Ht, Hh.
        subst r ot oh.
        unfold Stop, lock_guard, Handler_Clear, Thread_Stop.
        destruct (GdCoreEnabled flags);
          unfold bind, emit, get, modify, ret, ASSERT, fatal;
          cbn -[ShutDown]; rewrite ShutDown_run; cbn; discriminate.
    + exfalso. revert H.
      destruct s as [r ot oh a b [st]]. cbn in Hrun, Hh. subst r oh.
      unfold Stop, lock_guard, Handler_Clear, Thread_Stop.
      destruct (GdCoreEnabled flags);
        unfold bind, emit, get, modify, ret, ASSERT, fatal;
        cbn -[ShutDown]; discriminate.
  - rewrite (Stop_idle _ _ Hrun) in H. discriminate.
Qed.

Lemma Reachable_Invariant (s : Stack) : Reachable s -> Invariant s.
Proof.
  induction 1 as [| s s' tr _ IH Hstep | flags s s' tr _ IH Hstep
                  | flags s s' tr _ IH Hstep | s h t _ IH Hh].
  - reflexivity.
  - apply StartIdleMode_Ret in Hstep.
    destruct Hstep as (Hidle & _ & _ & -> & _).
    unfold Invariant in IH. rewrite Hidle in IH. subst s.
    unfold Invariant. cbn. split; [eauto | auto].
  - apply StartEverything_Ret in Hstep.
    destruct Hstep as (Hidle & order & _ & _ & -> & _).
    unfold Invariant in IH. rewrite Hidle in IH. subst s.
    unfold Invariant. cbn [StartEverything_state is_running_ stack_thread_
                           stack_handler_ acl_ btm_ initial].
    split; [eauto |].
    destruct (GdCoreEnabled flags).
    + left. rewrite andb_false_r. reflexivity.
    + right. reflexivity.
  - apply Stop_Ret in Hstep. destruct Hstep as (_ & -> & _). reflexivity.
  - unfold Invariant in *. destruct s as [r ot oh a b reg].
    cbn in *. destruct r.
    + destruct IH as [(t0 & h0 & Ht & _) Hb]. split; [eauto | assumption].
    + inversion IH; subst. discriminate.
Qed.

Lemma Reachable_idle (s : Stack) :
  Reachable s -> is_running_ s = false -> s = initial.
Proof.
  intros Hr Hidle. apply Reachable_Invariant in Hr.
  unfold Invariant in Hr. rewrite Hidle in Hr. exact Hr.
Qed.

Lemma Reachable_running (s : Stack) :
  Reachable s -> is_running_ s = true ->
  (exists t h, stack_thread_ s = Some t /\ stack_handler_ s = Some h)
  /\ (acl_ s = None \/ btm_ s = None).
Proof.
  intros Hr Hrun. apply Reachable_Invariant in Hr.
  unfold Invariant in Hr. rewrite Hrun in Hr. exact Hr.
Qed.

(** ** Every run of [StartEverything] follows one script *)

Lemma attempted_prefix (order : list ModuleId) :
  exists tail, order = attempted order ++ tail.
Proof.
  induction order as [|m rest [tail IH]].
  - exists []. reflexivity.
  - cbn [attempted]. destruct (onStart m).
    + exists tail. cbn [app]. rewrite <- IH. reflexivity.
    + exists rest. reflexivity.
Qed.

Lemma StartEverything_script (flags : InitFlags) (s : Stack) :
  exists order rest,
    StartEverything_steps flags order
    = trace_of (StartEverything flags s) ++ rest
    /\ match StartEverything flags s with
       | Ret _ s' _ =>
           rest = []
           /\ resolve (StartEverything_modules flags) = inr order
           /\ is_running_ s' = true
       | Abort _ _ => In (EvSetRunning true) rest
       end.
Proof.
  destruct (is_running_ s) eqn:Hrun.
  - rewrite (StartEverything_running _ _ Hrun).
    exists [], (tl (StartEverything_steps flags [])).
    split; [reflexivity |].
    unfold StartEverything_steps. cbn [app tl map]. in_steps.
  - rewrite (StartEverything_idle _ _ Hrun). cbv zeta.
    destruct (resolve (StartEverything_modules flags)) as [e | order].
    { exists [], (skipn 3 (StartEverything_steps flags [])).
      split; [reflexivity |].
      unfold StartEverything_steps. cbn [app skipn map]. in_steps. }
    exists order.
    destruct (forallb onStart order); cbn [negb].
    2:{ destruct (attempted_prefix order) as [tail Htail].
        unfold StartEverything_steps. cbn [trace_of].
        eexists. split.
        - rewrite Htail at 1. rewrite map_app, <- !app_assoc.
          reflexivity.
        - in_steps. }
    unfold StartEverything_steps, Start_steps.
    destruct (is_some (GetInstance StorageModule _)); cbn [negb trace_of].
    2:{ eexists. split.
        - rewrite <- !app_assoc. cbn [app]. reflexivity.
        - in_steps. }
    destruct (is_some (GetInstance Dumpsys _)); cbn [negb trace_of].
    2:{ eexists. split.
        - rewrite <- !app_assoc. cbn [app]. reflexivity.
        - in_steps. }
    destruct (GdCoreEnabled flags) eqn:Hcore; cbn [andb].
    2:{ exists []. rewrite app_nil_r. auto. }
    destruct (is_some (GetInstance L2cap _)); cbn [negb trace_of].
    2:{ eexists. split.
        - rewrite <- !app_assoc. cbn [app]. reflexivity.
        - in_steps. }
    exists []. rewrite app_nil_r. auto.
Qed.

(** ** Bridges constructed during a run *)




Lemma In_starts (e : Event) (order : list ModuleId) :
  In e (map EvModuleStart order) -> exists m, e = EvModuleStart m.
Proof.
  rewrite in_map_iff. intros [m [Hm _]]. exists m. congruence.
Qed.



(** ** The claims *)

(** C1 (as amended).  [Stop] on a Running stack marks the state Idle
    first, right after the Running check (only the lock and, with the core
    slice disabled, the shutting-down notice to the HCI shim come before);
    then it destroys the connection bridge, then the discovery bridge,
    clears the handler's pending queue, shuts the registry down in reverse
    start order, deletes the handler, and joins and deletes the worker
    thread.  It returns with everything released. *)
Theorem Stop_teardown_order (flags : InitFlags) (s : Stack) :
  Reachable s ->
  is_running_ s = true ->
  exists h,
    stack_handler_ s = Some h
    /\ Stop flags s = Ret tt initial (Stop_steps flags s h)
    /\ precedes (EvSetRunning false) (EvAclDelete (acl_ s))
                (Stop_steps flags s h) = true.
Proof.
  intros Hr Hrun.
  destruct (Reachable_running s Hr Hrun) as [(t & h & Ht & Hh) _].
  exists h. split; [assumption |]. split.
  - exact (Stop_running flags s t h Hrun Ht Hh).
  - unfold Stop_steps.
    assert (Heq : Event_eqb (EvSetRunning false) (EvSetRunning false) = true).
    { unfold Event_eqb.
      destruct (Event_eq_dec (EvSetRunning false) (EvSetRunning false));
        congruence. }
    assert (Hacl : Event_eqb (EvAclDelete (acl_ s)) (EvAclDelete (acl_ s))
                   = true).
    { unfold Event_eqb.
      destruct (Event_eq_dec (EvAclDelete (acl_ s)) (EvAclDelete (acl_ s)));
        congruence. }
    destruct (GdCoreEnabled flags); cbn [negb app precedes existsb];
      rewrite Heq, Hacl; cbn [andb orb];
      rewrite ?orb_true_r; reflexivity.
Qed.


(** C3.  Starting while Running and stopping while not Running abort the
    process; the operations return nothing, so there is no error value a
    caller could recover from. *)
Theorem protocol_violations_abort (flags : InitFlags) (s : Stack) :
  (is_running_ s = true ->
   StartEverything flags s
   = Abort "StartEverything Gd stack already running" [EvLock]
   /\ StartIdleMode s
      = Abort "StartIdleMode Gd stack already running" [EvLock])
  /\ (is_running_ s = false ->
      Stop flags s
      = Abort "Stop Gd stack not running"
          (EvLock :: if negb (GdCoreEnabled flags)
                     then [EvHciOnShuttingDown] else [])).
Proof.
  split.
  - intros Hrun. split.
    + apply StartEverything_running. assumption.
    + apply StartIdleMode_running. assumption.
  - apply Stop_idle.
Qed.

(** C4.  Every accessor of running state aborts on its assertion when the
    stack is not Running. *)
Theorem accessors_abort_when_not_running (s : Stack) :
  is_running_ s = false ->
  GetStackManager s = Abort "is_running_" [EvLock]
  /\ GetAcl s = Abort "is_running_" [EvLock]
  /\ GetBtm s = Abort "is_running_" [EvLock]
  /\ GetHandler s = Abort "is_running_" [EvLock]
  /\ forall m, GetModule m s = Abort "is_running_" [EvLock].
Proof.
  intros Hidle.
  rewrite GetStackManager_run, GetAcl_run, GetBtm_run, GetHandler_run.
  rewrite Hidle. repeat split.
  intros m. rewrite GetModule_run, Hidle. reflexivity.
Qed.

(** C5.  [IsRunning] takes the lock, reads the flag and changes nothing;
    it answers false in the initial state, true in the state left by a
    returning [StartIdleMode] or [StartEverything], and false in the state
    left by a returning [Stop]. *)
Theorem IsRunning_follows_start_stop :
  IsRunning initial = Ret false initial [EvLock; EvUnlock]
  /\ (forall s, IsRunning s = Ret (is_running_ s) s [EvLock; EvUnlock])
  /\ (forall s s' tr,
        StartIdleMode s = Ret tt s' tr ->
        IsRunning s' = Ret true s' [EvLock; EvUnlock])
  /\ (forall flags s s' tr,
        StartEverything flags s = Ret tt s' tr ->
        IsRunning s' = Ret true s' [EvLock; EvUnlock])
  /\ (forall flags s s' tr,
        Stop flags s = Ret tt s' tr ->
        IsRunning s' = Ret false s' [EvLock; EvUnlock]).
Proof.
  split; [reflexivity |].
  split; [intros s; apply IsRunning_run |].
  split; [| split].
  - intros s s' tr H. apply StartIdleMode_Ret in H.
    destruct H as (_ & _ & _ & -> & _). reflexivity.
  - intros flags s s' tr H. apply StartEverything_Ret in H.
    destruct H as (_ & order & _ & _ & -> & _). reflexivity.
  - intros flags s s' tr H. apply Stop_Ret in H.
    destruct H as (_ & -> & _). reflexivity.
Qed.

(** C6.  With only the HCI toggle set, a returning [StartEverything] has
    started exactly the HAL, the HCI layer, storage and dumpsys: the lookup
    of the storage module succeeds and the lookup of the ACL manager
    reports not-found. *)
Theorem hci_only_storage_without_acl_manager (s s' : Stack)
  (tr : list Event) :
  Reachable s ->
  StartEverything hci_only s = Ret tt s' tr ->
  (forall m,
     In m (started_modules (stack_manager_ s'))
     <-> In m [HciHal; HciLayer; StorageModule; Dumpsys])
  /\ GetModule StorageModule s'
     = Ret (Some (mkInstance StorageModule)) s' [EvLock; EvUnlock]
  /\ GetModule AclManager s' = Ret None s' [EvLock; EvUnlock].
Proof.
  intros Hr H. apply StartEverything_Ret in H.
  destruct H as (Hidle & order & Hres & _ & -> & _).
  rewrite (Reachable_idle s Hr Hidle).
  split; [| split].
  - intros m. cbn [StartEverything_state stack_manager_ started_modules
                   initial app].
    exact (resolve_In _ _ Hres m).
  - rewrite GetModule_run. cbn [StartEverything_state is_running_].
    unfold GetInstance. cbn [stack_manager_ started_modules initial app].
    rewrite (resolve_mem _ _ Hres). reflexivity.
  - rewrite GetModule_run. cbn [StartEverything_state is_running_].
    unfold GetInstance. cbn [stack_manager_ started_modules initial app].
    rewrite (resolve_mem _ _ Hres). reflexivity.
Qed.

(** C7.  [StartIdleMode] aborts when already Running.  Otherwise it hands
    the registry a list holding the storage module and nothing else; when
    the run returns, the storage module was started, then looked up, then
    the flag was set, and the lookup of the storage module succeeds.  The
    run does return whenever storage declares no dependency and its start
    hook succeeds. *)
Theorem StartIdleMode_storage_only (s : Stack) :
  (is_running_ s = true ->
   StartIdleMode s
   = Abort "StartIdleMode Gd stack already running" [EvLock])
  /\ (is_running_ s = false ->
      (exists rest,
         trace_of (StartIdleMode s)
         = [EvLock; EvThreadNew; EvStartUp [StorageModule]] ++ rest)
      /\ (forall s' tr,
            StartIdleMode s = Ret tt s' tr ->
            tr = StartIdleMode_steps
            /\ started_modules (stack_manager_ s')
               = started_modules (stack_manager_ s) ++ [StorageModule]
            /\ GetInstance StorageModule (stack_manager_ s')
               = Some (mkInstance StorageModule))
      /\ (dependencies StorageModule = [] ->
          onStart StorageModule = true ->
          StartIdleMode s
          = Ret tt (StartIdleMode_state [StorageModule] s)
                StartIdleMode_steps)).
Proof.
  split; [apply StartIdleMode_running |].
  intros Hidle. split; [| split].
  - rewrite (StartIdleMode_idle _ Hidle). cbv zeta.
    destruct (resolve [StorageModule]) as [e | order].
    + exists []. reflexivity.
    + repeat match goal with
             | |- context [if ?c then _ else _] => destruct c
             end; cbn [trace_of app Start_steps]; eexists; reflexivity.
  - intros s' tr H. apply StartIdleMode_Ret in H.
    destruct H as (_ & _ & _ & -> & ->).
    split; [reflexivity |]. split; [reflexivity |].
    unfold GetInstance. cbn [StartIdleMode_state stack_manager_
                             started_modules].
    replace (mem StorageModule
               (started_modules (stack_manager_ s) ++ [StorageModule]))
      with true; [reflexivity |].
    symmetry. apply mem_In. apply in_or_app. right. left. reflexivity.
  - intros Hdeps Hstart. rewrite (StartIdleMode_idle _ Hidle). cbv zeta.
    assert (Hres : resolve [StorageModule] = inr [StorageModule]).
    { unfold resolve, satisfied, ready.
      cbn [unique mem existsb forallb List.length extract find].
      unfold ready. rewrite Hdeps. reflexivity. }
    rewrite Hres. cbn [forallb]. rewrite Hstart. cbn [andb negb].
    unfold GetInstance. cbn [started_modules].
    replace (mem StorageModule
               (started_modules (stack_manager_ s) ++ [StorageModule]))
      with true; [reflexivity |].
    symmetry. apply mem_In. apply in_or_app. right. left. reflexivity.
Qed.

Lemma modules_without_hci (flags : InitFlags) :
  GdHciEnabled flags = false ->
  mem Dumpsys (StartEverything_modules flags) = false.
Proof.
  destruct flags as [hci ctl acl sec core]. cbn [GdHciEnabled].
  intros ->. destruct ctl, acl, sec, core; reflexivity.
Qed.

(** C8.  With the HCI toggle off, dumpsys is never put on the module list,
    and [StartEverything] aborts whatever the other toggles are: at the
    latest on the leaf-module assertions that follow [Start], which that
    list cannot satisfy. *)
Theorem StartEverything_aborts_without_hci (flags : InitFlags) (s : Stack) :
  Reachable s ->
  GdHciEnabled flags = false ->
  mem Dumpsys (StartEverything_modules flags) = false
  /\ (exists msg tr, StartEverything flags s = Abort msg tr)
  /\ (forall order,
        is_running_ s = false ->
        resolve (StartEverything_modules flags) = inr order ->
        forallb onStart order = true ->
        StartEverything flags s
        = Abort "GetInstance != nullptr"
            (Start_steps (StartEverything_modules flags) order
             ++ EvGetInstance StorageModule
                :: (if mem StorageModule order
                    then [EvGetInstance Dumpsys] else []))).
Proof.
  intros Hr Hhci.
  pose proof (modules_without_hci flags Hhci) as Hmem.
  assert (Hrun : forall order,
             is_running_ s = false ->
             resolve (StartEverything_modules flags) = inr order ->
             forallb onStart order = true ->
             StartEverything flags s
             = Abort "GetInstance != nullptr"
                 (Start_steps (StartEverything_modules flags) order
                  ++ EvGetInstance StorageModule
                     :: (if mem StorageModule order
                         then [EvGetInstance Dumpsys] else []))).
  { intros order Hidle Hres Hstart.
    rewrite (StartEverything_idle _ _ Hidle). cbv zeta.
    rewrite Hres, Hstart. cbn [negb].
    rewrite (Reachable_idle s Hr Hidle).
    unfold GetInstance. cbn [initial stack_manager_ started_modules app].
    rewrite (resolve_mem _ _ Hres Dumpsys), Hmem.
    destruct (mem StorageModule order); reflexivity. }
  split; [exact Hmem |]. split; [| exact Hrun].
  destruct (is_running_ s) eqn:Hidle.
  - rewrite (StartEverything_running _ _ Hidle). eauto.
  - destruct (resolve (StartEverything_modules flags)) as [e | order] eqn:Hres.
    + rewrite (StartEverything_idle _ _ Hidle). cbv zeta. rewrite Hres. eauto.
    + destruct (forallb onStart order) eqn:Hstart.
      * rewrite (Hrun order eq_refl eq_refl Hstart). eauto.
      * rewrite (StartEverything_idle _ _ Hidle). cbv zeta.
        rewrite Hres, Hstart. cbn [negb]. eauto.
Qed.


(** C10.  On a Running stack [GetAcl] and [GetBtm] return the slot as it
    is, null included.  After a returning [StartEverything] with the core
    toggle off [GetBtm] returns null; with the connection toggle off or the
    core toggle on [GetAcl] returns null; after a returning [StartIdleMode]
    both return null.  None of these calls aborts. *)
Theorem bridge_accessors_return_null :
  (forall s,
     is_running_ s = true ->
     GetAcl s = Ret (acl_ s) s [EvLock; EvUnlock]
     /\ GetBtm s = Ret (btm_ s) s [EvLock; EvUnlock])
  /\ (forall flags s s' tr,
        Reachable s ->
        StartEverything flags s = Ret tt s' tr ->
        (GdCoreEnabled flags = false ->
         GetBtm s' = Ret None s' [EvLock; EvUnlock])
        /\ (GdAclEnabled flags = false \/ GdCoreEnabled flags = true ->
            GetAcl s' = Ret None s' [EvLock; EvUnlock]))
  /\ (forall s s' tr,
        Reachable s ->
        StartIdleMode s = Ret tt s' tr ->
        GetAcl s' = Ret None s' [EvLock; EvUnlock]
        /\ GetBtm s' = Ret None s' [EvLock; EvUnlock]).
Proof.
  split; [| split].
  - intros s Hrun. rewrite GetAcl_run, GetBtm_run, Hrun. split; reflexivity.
  - intros flags s s' tr Hr H. apply StartEverything_Ret in H.
    destruct H as (Hidle & order & _ & _ & -> & _).
    rewrite (Reachable_idle s Hr Hidle).
    rewrite GetAcl_run, GetBtm_run.
    cbn [StartEverything_state is_running_ acl_ btm_ initial].
    split.
    + intros ->. reflexivity.
    + intros [-> | ->]; [reflexivity |].
      rewrite andb_false_r. reflexivity.
  - intros s s' tr Hr H. apply StartIdleMode_Ret in H.
    destruct H as (Hidle & _ & _ & -> & _).
    rewrite (Reachable_idle s Hr Hidle). split; reflexivity.
Qed.

(** ** The module list of [StartEverything] *)

Lemma modules_count (flags : InitFlags) (m : ModuleId) :
  count_occ ModuleId_eq_dec (StartEverything_modules flags) m
  = match m with
    | StorageModule => b2n (GdHciEnabled flags) + b2n (GdCoreEnabled flags)
    | _ => b2n (requested_under flags m)
    end.
Proof.
  destruct flags as [hci ctl acl sec core].
  destruct hci, ctl, acl, sec, core; destruct m; vm_compute; reflexivity.
Qed.

(** X1.  A module is on the list [StartEverything] hands to [Start] exactly
    under its toggle: the HAL, the HCI layer and dumpsys under the HCI
    toggle, the controller, the ACL manager and the security module under
    their own, the thirteen core modules under the core toggle, and storage
    under the HCI or the core toggle.  The list has four entries for HCI,
    one each for controller, ACL and security, and fourteen for core. *)
Theorem modules_by_toggle (flags : InitFlags) :
  (forall m,
     mem m (StartEverything_modules flags) = requested_under flags m)
  /\ List.length (StartEverything_modules flags)
     = 4 * b2n (GdHciEnabled flags) + b2n (GdControllerEnabled flags)
       + b2n (GdAclEnabled flags) + b2n (GdSecurityEnabled flags)
       + 14 * b2n (GdCoreEnabled flags).
Proof.
  split.
  - intros m.
    destruct flags as [hci ctl acl sec core].
    destruct hci, ctl, acl, sec, core; destruct m; vm_compute; reflexivity.
  - destruct flags as [hci ctl acl sec core].
    destruct hci, ctl, acl, sec, core; reflexivity.
Qed.

(** X2.  The storage module is added once under the HCI toggle and once
    more under the core toggle, so it is on the list twice when both are
    set; every other module is on the list at most once.  The list is free
    of duplicates exactly when the two toggles are not both set. *)
Theorem storage_registered_twice (flags : InitFlags) :
  count_occ ModuleId_eq_dec (StartEverything_modules flags) StorageModule
  = b2n (GdHciEnabled flags) + b2n (GdCoreEnabled flags)
  /\ (forall m,
        m <> StorageModule ->
        count_occ ModuleId_eq_dec (StartEverything_modules flags) m <= 1)
  /\ (NoDup (StartEverything_modules flags)
      <-> GdHciEnabled flags && GdCoreEnabled flags = false).
Proof.
  split; [apply (modules_count flags StorageModule) |].
  split.
  - intros m Hm. rewrite modules_count.
    destruct m; try congruence;
      match goal with |- b2n ?b <= 1 => destruct b; cbn; lia end.
  - rewrite (NoDup_count_occ ModuleId_eq_dec). split.
    + intros H. specialize (H StorageModule). rewrite modules_count in H.
      destruct (GdHciEnabled flags), (GdCoreEnabled flags);
        cbn in *; try reflexivity; lia.
    + intros H m. rewrite modules_count.
      destruct m;
        try match goal with |- b2n ?b <= 1 => destruct b; cbn; lia end.
      destruct (GdHciEnabled flags), (GdCoreEnabled flags);
        cbn in *; try discriminate; lia.
Qed.

(** ** [Stop] on any state *)

Lemma Stop_trace_of (flags : InitFlags) (s : Stack) :
  trace_of (Stop flags s) = Stop_trace flags s.
Proof.
  destruct (is_running_ s) eqn:Hrun.
  - destruct s as [r ot oh a b [st]]. cbn in Hrun. subst r.
    unfold Stop, lock_guard, Handler_Clear, Thread_Stop, Stop_trace.
    destruct (GdCoreEnabled flags), oh as [h|], ot as [t|];
      unfold bind, emit, get, modify, ret, ASSERT, fatal;
      cbn -[ShutDown]; rewrite ?ShutDown_run; cbn;
      rewrite <- ?app_assoc; reflexivity.
  - rewrite (Stop_idle _ _ Hrun). unfold Stop_trace. rewrite Hrun.
    destruct (GdCoreEnabled flags); reflexivity.
Qed.

Lemma forallb_map_const {A : Type} (p : Event -> bool) (f : A -> Event)
  (l : list A) :
  (forall x, p (f x) = true) -> forallb p (map f l) = true.
Proof.
  intros H. induction l as [|x l IH]; [reflexivity |].
  cbn. rewrite H, IH. reflexivity.
Qed.

Lemma forallb_prefix {A : Type} (p : A -> bool) (l r : list A) :
  forallb p (l ++ r) = true -> forallb p l = true.
Proof.
  rewrite forallb_app. intros H. apply andb_true_iff in H. tauto.
Qed.

Lemma no_teardown_in_steps (flags : InitFlags) (order : list ModuleId) :
  forallb (fun e => negb (is_teardown e)) (StartEverything_steps flags order)
  = true.
Proof.
  unfold StartEverything_steps. rewrite !forallb_app.
  rewrite (forallb_map_const (fun e => negb (is_teardown e)) EvModuleStart)
    by reflexivity.
  destruct (GdCoreEnabled flags), (GdAclEnabled flags); reflexivity.
Qed.

(** X3.  A run of [StartEverything] or [StartIdleMode] that aborts, at
    whatever point, performs no teardown: nothing that was created or
    started up to the abort is deleted or stopped, and the flag is never
    cleared.  A run of [Stop], on any state, creates and starts nothing
    and never sets the flag. *)
Theorem start_never_tears_down_stop_never_creates (flags : InitFlags)
  (s : Stack) :
  forallb (fun e => negb (is_teardown e))
          (trace_of (StartEverything flags s)) = true
  /\ forallb (fun e => negb (is_teardown e)) (trace_of (StartIdleMode s))
     = true
  /\ forallb (fun e => negb (is_startup e)) (trace_of (Stop flags s)) = true.
Proof.
  split; [| split].
  - destruct (StartEverything_script flags s) as (order & rest & Heq & _).
    apply (forallb_prefix _ _ rest). rewrite <- Heq.
    apply no_teardown_in_steps.
  - destruct (is_running_ s) eqn:Hrun.
    + rewrite (StartIdleMode_running _ Hrun). reflexivity.
    + rewrite (StartIdleMode_idle _ Hrun). cbv zeta.
      destruct (resolve [StorageModule]) as [e | order] eqn:Hres;
        [reflexivity |].
      apply resolve_storage_only in Hres. destruct Hres as [_ ->].
      cbn [forallb attempted]. rewrite andb_true_r.
      destruct (onStart StorageModule); cbn [negb]; [| reflexivity].
      repeat match goal with
             | |- context [if ?c then Abort _ _ else _] => destruct c
             end; reflexivity.
  - rewrite Stop_trace_of. unfold Stop_trace. rewrite !forallb_app.
    destruct (GdCoreEnabled flags), (is_running_ s); cbn [negb forallb andb];
      try reflexivity;
      destruct (stack_handler_ s) as [h|]; try reflexivity;
      rewrite !forallb_app;
      rewrite (forallb_map_const (fun e => negb (is_startup e)) EvModuleStop)
        by reflexivity;
      destruct (stack_thread_ s); reflexivity.
Qed.

(** X4.  [Stop] notifies the HCI shim that the stack is shutting down
    exactly when the core toggle is off, and it does so before it checks
    that the stack is Running: the notice goes out even on a run that then
    aborts because the stack was never started. *)
Theorem shutting_down_notice_precedes_running_check (flags : InitFlags)
  (s : Stack) :
  (In EvHciOnShuttingDown (trace_of (Stop flags s))
   <-> GdCoreEnabled flags = false)
  /\ (GdCoreEnabled flags = false ->
      exists rest,
        trace_of (Stop flags s) = EvLock :: EvHciOnShuttingDown :: rest
        /\ ~ In EvHciOnShuttingDown rest).
Proof.
  assert (Hrest : forall rest,
             rest = (if is_running_ s then
                       [EvSetRunning false; EvAclDelete (acl_ s);
                        EvBtmDelete (btm_ s)]
                       ++ match stack_handler_ s with
                          | None => []
                          | Some h =>
                              [EvHandlerClear (handler_queue h); EvShutDown]
                              ++ map EvModuleStop
                                   (rev (started_modules (stack_manager_ s)))
                              ++ [EvHandlerDelete]
                              ++ match stack_thread_ s with
                                 | None => []
                                 | Some _ =>
                                     [EvThreadStop; EvThreadDelete; EvUnlock]
                                 end
                          end
                     else []) ->
             ~ In EvHciOnShuttingDown rest).
  { intros rest -> H.
    destruct (is_running_ s); [| exact H].
    apply in_app_or in H. destruct H as [H | H].
    { cbn in H. intuition discriminate. }
    destruct (stack_handler_ s) as [h|]; [| exact H].
    apply in_app_or in H. destruct H as [H | H].
    { cbn in H. intuition discriminate. }
    apply in_app_or in H. destruct H as [H | H].
    { apply in_map_iff in H. destruct H as [m [H _]]. discriminate. }
    apply in_app_or in H. destruct H as [H | H].
    { cbn in H. intuition discriminate. }
    destruct (stack_thread_ s); cbn in H; intuition discriminate. }
  rewrite Stop_trace_of. unfold Stop_trace.
  split.
  - destruct (GdCoreEnabled flags); cbn [negb app]; split.
    + intros [H | H]; [discriminate |].
      exfalso. exact (Hrest _ eq_refl H).
    + discriminate.
    + reflexivity.
    + intros _. right. left. reflexivity.
  - intros ->. cbn [negb app]. eexists. split; [reflexivity |].
    apply Hrest. reflexivity.
Qed.

(** ** The private [Start] *)

Lemma Start_running (modules : ModuleList) (s : Stack) :
  is_running_ s = true ->
  Start modules s = Abort "Start Gd stack already running" [].
Proof.
  intros Hrun. unfold Start.
  unfold bind at 1. unfold get at 1.
  unfold bind at 1. rewrite Hrun. reflexivity.
Qed.

Lemma Start_Ret (modules : ModuleList) (s s' : Stack) (tr : list Event) :
  Start modules s = Ret tt s' tr ->
  is_running_ s = false
  /\ exists order,
       resolve modules = inr order
       /\ forallb onStart order = true
       /\ s' = Start_state order s
       /\ tr = [EvThreadNew; EvStartUp modules]
              ++ map EvModuleStart order ++ [EvHandlerNew].
Proof.
  intros H. destruct (is_running_ s) eqn:Hrun.
  - rewrite (Start_running _ _ Hrun) in H. discriminate.
  - split; [reflexivity |]. rewrite (Start_idle _ _ Hrun) in H.
    destruct (resolve modules) as [e | order]; [discriminate |].
    exists order. split; [reflexivity |].
    destruct (forallb onStart order); [| discriminate].
    inversion H. auto.
Qed.

(** X5.  [Start] checks the running flag itself: on a Running stack it
    aborts before it creates anything.  When it returns it has created the
    thread and a handler with an empty queue bound to that thread, has left
    both bridge slots as they were, and has not set the running flag: until
    the caller sets it, the accessors still abort, the handler accessor
    included. *)
Theorem Start_leaves_flag_to_caller (modules : ModuleList) (s : Stack) :
  (is_running_ s = true ->
   Start modules s = Abort "Start Gd stack already running" [])
  /\ (forall s' tr,
        Start modules s = Ret tt s' tr ->
        is_running_ s' = false
        /\ stack_thread_ s' = Some gd_stack_thread
        /\ stack_handler_ s' = Some (mkHandler (Some gd_stack_thread) [])
        /\ acl_ s' = acl_ s
        /\ btm_ s' = btm_ s
        /\ GetHandler s' = Abort "is_running_" [EvLock]
        /\ GetStackManager s' = Abort "is_running_" [EvLock]).
Proof.
  split; [apply Start_running |].
  intros s' tr H. apply Start_Ret in H.
  destruct H as (Hidle & order & _ & _ & -> & _).
  rewrite GetHandler_run, GetStackManager_run.
  cbn [Start_state is_running_ stack_thread_ stack_handler_ acl_ btm_].
  rewrite Hidle. repeat split.
Qed.

(** X6.  The check inside [Start] never fires on a run of the public
    operations: [StartIdleMode] and [StartEverything] test the flag first,
    so none of their runs aborts with the message of [Start]. *)
Theorem inner_running_check_never_fires (flags : InitFlags) (s : Stack) :
  (forall tr,
     StartEverything flags s <> Abort "Start Gd stack already running" tr)
  /\ (forall tr,
        StartIdleMode s <> Abort "Start Gd stack already running" tr).
Proof.
  split; intros tr H.
  - destruct (is_running_ s) eqn:Hrun.
    + rewrite (StartEverything_running _ _ Hrun) in H. discriminate.
    + rewrite (StartEverything_idle _ _ Hrun) in H. cbv zeta in H.
      destruct (resolve (StartEverything_modules flags)) as [[|] | order];
        try discriminate.
      repeat match type of H with
             | (if ?c then _ else _) = _ => destruct c; try discriminate
             end.
  - destruct (is_running_ s) eqn:Hrun.
    + rewrite (StartIdleMode_running _ Hrun) in H. discriminate.
    + rewrite (StartIdleMode_idle _ Hrun) in H. cbv zeta in H.
      destruct (resolve [StorageModule]) as [[|] | order];
        try discriminate.
      repeat match type of H with
             | (if ?c then _ else _) = _ => destruct c; try discriminate
             end.
Qed.

(** ** How the operations follow one another *)

(** X7.  Start and Stop alternate.  In the state left by a returning
    [StartEverything] or [StartIdleMode], either start operation aborts; in
    the state left by a returning [Stop], [Stop] aborts and so does every
    accessor.  No state needs to be assumed reachable for this. *)
Theorem start_and_stop_alternate :
  (forall flags flags' s s' tr,
     StartEverything flags s = Ret tt s' tr ->
     StartEverything flags' s'
     = Abort "StartEverything Gd stack already running" [EvLock]
     /\ StartIdleMode s'
        = Abort "StartIdleMode Gd stack already running" [EvLock])
  /\ (forall flags' s s' tr,
        StartIdleMode s = Ret tt s' tr ->
        StartEverything flags' s'
        = Abort "StartEverything Gd stack already running" [EvLock]
        /\ StartIdleMode s'
           = Abort "StartIdleMode Gd stack already running" [EvLock])
  /\ (forall flags flags' s s' tr,
        Stop flags s = Ret tt s' tr ->
        Stop flags' s'
        = Abort "Stop Gd stack not running"
            (EvLock :: if negb (GdCoreEnabled flags')
                       then [EvHciOnShuttingDown] else [])
        /\ GetStackManager s' = Abort "is_running_" [EvLock]
        /\ GetAcl s' = Abort "is_running_" [EvLock]
        /\ GetBtm s' = Abort "is_running_" [EvLock]
        /\ GetHandler s' = Abort "is_running_" [EvLock]).
Proof.
  split; [| split].
  - intros flags flags' s s' tr H. apply StartEverything_Ret in H.
    destruct H as (_ & order & _ & _ & -> & _).
    split; [apply StartEverything_running | apply StartIdleMode_running];
      reflexivity.
  - intros flags' s s' tr H. apply StartIdleMode_Ret in H.
    destruct H as (_ & _ & _ & -> & _).
    split; [apply StartEverything_running | apply StartIdleMode_running];
      reflexivity.
  - intros flags flags' s s' tr H. apply Stop_Ret in H.
    destruct H as (_ & -> & _).
    split; [apply Stop_idle; reflexivity |].
    repeat split.
Qed.

(** X8.  [Stop] gives back exactly what a start took: from a state the
    singleton can be in, a returning [StartEverything] or [StartIdleMode]
    followed by [Stop], under whatever toggles, returns and leaves the
    state the start found, with the thread, the handler and both bridge
    slots null and no module left in the registry. *)
Theorem Stop_restores_the_state_before_start (flags flags' : InitFlags)
  (s s1 : Stack) (tr : list Event) :
  Reachable s ->
  StartEverything flags s = Ret tt s1 tr \/ StartIdleMode s = Ret tt s1 tr ->
  Stop flags' s1
  = Ret tt s (Stop_steps flags' s1 (mkHandler (Some gd_stack_thread) []))
  /\ s = mkStack false None None None None (mkManager []).
Proof.
  intros Hr [H | H].
  - apply StartEverything_Ret in H.
    destruct H as (Hidle & order & _ & _ & -> & _).
    rewrite (Reachable_idle s Hr Hidle). split; [| reflexivity].
    apply (Stop_running flags' _ gd_stack_thread); reflexivity.
  - apply StartIdleMode_Ret in H.
    destruct H as (Hidle & _ & _ & -> & _).
    rewrite (Reachable_idle s Hr Hidle). split; [| reflexivity].
    apply (Stop_running flags' _ gd_stack_thread); reflexivity.
Qed.

Lemma Reachable_Bound (s : Stack) : Reachable s -> Bound s.
Proof.
  induction 1 as [| s s' tr _ IH Hstep | flags s s' tr _ IH Hstep
                  | flags s s' tr _ IH Hstep | s h t _ IH Hh].
  - intros H. discriminate.
  - apply StartIdleMode_Ret in Hstep.
    destruct Hstep as (_ & _ & _ & -> & _).
    intros _. cbn. split; [reflexivity | eauto].
  - apply StartEverything_Ret in Hstep.
    destruct Hstep as (_ & order & _ & _ & -> & _).
    intros _. cbn. split; [reflexivity | eauto].
  - apply Stop_Ret in Hstep. destruct Hstep as (_ & -> & _).
    intros H. discriminate.
  - intros Hrun. destruct s as [r ot oh a b reg].
    unfold Bound in IH. cbn in Hrun, Hh, IH |- *.
    destruct (IH Hrun) as [Ht [queue Hq]]. split; [assumption |].
    rewrite Hq in Hh. inversion Hh; subst h.
    exists (queue ++ [t]). reflexivity.
Qed.

(** X9.  Unlike the bridge accessors, [GetHandler] never returns null on a
    Running stack the singleton can be in: it returns the handler created
    by [Start], bound to the thread the stack owns, whatever tasks were
    posted to it since, and leaves the state as it is. *)
Theorem GetHandler_never_null_when_running (s : Stack) :
  Reachable s ->
  is_running_ s = true ->
  stack_thread_ s = Some gd_stack_thread
  /\ exists queue,
       GetHandler s
       = Ret (Some (mkHandler (stack_thread_ s) queue)) s [EvLock; EvUnlock].
Proof.
  intros Hr Hrun. destruct (Reachable_Bound s Hr Hrun) as [Ht [queue Hq]].
  split; [assumption |]. exists queue.
  rewrite GetHandler_run, Hrun, Hq, Ht. reflexivity.
Qed.

(** ** What a returning [StartEverything] guarantees *)

Lemma StartEverything_Ret_leaves (flags : InitFlags) (s s' : Stack)
  (tr : list Event) :
  StartEverything flags s = Ret tt s' tr ->
  exists order,
    resolve (StartEverything_modules flags) = inr order
    /\ s' = StartEverything_state flags order s
    /\ tr = StartEverything_steps flags order
    /\ let registry :=
         mkManager (started_modules (stack_manager_ s) ++ order) in
       is_some (GetInstance StorageModule registry) = true
       /\ is_some (GetInstance Dumpsys registry) = true
       /\ (GdCoreEnabled flags = true ->
           is_some (GetInstance L2cap registry) = true).
Proof.
  intros H. destruct (is_running_ s) eqn:Hrun.
  - rewrite (StartEverything_running _ _ Hrun) in H. discriminate.
  - rewrite (StartEverything_idle _ _ Hrun) in H. cbv zeta in H.
    destruct (resolve (StartEverything_modules flags)) as [e | order];
      [discriminate |].
    exists order. split; [reflexivity |].
    destruct (forallb onStart order); [| discriminate].
    cbn [negb] in H. cbv zeta.
    destruct (is_some (GetInstance StorageModule _)); [| discriminate].
    destruct (is_some (GetInstance Dumpsys _)); [| discriminate].
    cbn [negb] in H.
    destruct (GdCoreEnabled flags).
    + destruct (is_some (GetInstance L2cap _)); [| discriminate].
      inversion H. auto.
    + inversion H. repeat split. discriminate.
Qed.

Lemma is_some_GetInstance (m : ModuleId) (r : StackManager) :
  is_some (GetInstance m r) = true ->
  GetInstance m r = Some (mkInstance m).
Proof.
  unfold GetInstance. destruct (mem m (started_modules r));
    [reflexivity | discriminate].
Qed.

(** X10.  The leaf-module assertions of [StartEverything] are what later
    lookups rely on: in the state a returning run leaves, looking up the
    storage module and dumpsys through the registry accessor succeeds, and
    so does looking up the L2cap shim when the core toggle is set.  This
    holds from any state, reachable or not. *)
Theorem leaf_modules_found_after_start (flags : InitFlags) (s s' : Stack)
  (tr : list Event) :
  StartEverything flags s = Ret tt s' tr ->
  GetModule StorageModule s'
  = Ret (Some (mkInstance StorageModule)) s' [EvLock; EvUnlock]
  /\ GetModule Dumpsys s'
     = Ret (Some (mkInstance Dumpsys)) s' [EvLock; EvUnlock]
  /\ (GdCoreEnabled flags = true ->
      GetModule L2cap s'
      = Ret (Some (mkInstance L2cap)) s' [EvLock; EvUnlock]).
Proof.
  intros H. apply StartEverything_Ret_leaves in H.
  destruct H as (order & _ & -> & _ & Hstorage & Hdumpsys & Hl2cap).
  rewrite !GetModule_run.
  cbn [StartEverything_state is_running_ stack_manager_].
  rewrite (is_some_GetInstance _ _ Hstorage).
  rewrite (is_some_GetInstance _ _ Hdumpsys).
  split; [reflexivity |]. split; [reflexivity |].
  intros Hcore. rewrite (is_some_GetInstance _ _ (Hl2cap Hcore)).
  reflexivity.
Qed.

(** X11.  A bridge is constructed with the handler [Start] has just
    created: in the state a returning [StartEverything] leaves, the bridge
    it constructed holds the very handler that [GetHandler] returns, and
    the discovery bridge holds what the registry returned for the inquiry
    module. *)
Theorem bridges_share_the_stack_handler (flags : InitFlags) (s s' : Stack)
  (tr : list Event) :
  StartEverything flags s = Ret tt s' tr ->
  (GdCoreEnabled flags = true ->
   exists b,
     GetBtm s' = Ret (Some b) s' [EvLock; EvUnlock]
     /\ GetHandler s' = Ret (btm_handler b) s' [EvLock; EvUnlock]
     /\ btm_handler b <> None
     /\ btm_inquiry b = GetInstance InquiryModule (stack_manager_ s'))
  /\ (GdAclEnabled flags = true ->
      GdCoreEnabled flags = false ->
      exists a,
        GetAcl s' = Ret (Some a) s' [EvLock; EvUnlock]
        /\ GetHandler s' = Ret (acl_handler a) s' [EvLock; EvUnlock]
        /\ acl_handler a <> None).
Proof.
  intros H. apply StartEverything_Ret in H.
  destruct H as (_ & order & _ & _ & -> & _).
  rewrite GetBtm_run, GetAcl_run, GetHandler_run.
  cbn [StartEverything_state is_running_ stack_handler_ acl_ btm_
       stack_manager_].
  split.
  - intros ->. eexists. split; [reflexivity |].
    cbn [btm_handler btm_inquiry]. repeat split. discriminate.
  - intros -> ->. cbn [andb negb]. eexists. split; [reflexivity |].
    cbn [acl_handler]. split; [reflexivity | discriminate].
Qed.

(** X12.  The inquiry module handed to the discovery bridge is not checked
    by an assertion of its own, yet it is never null: whenever
    [StartEverything] constructs the discovery bridge, the inquiry module
    is on the module list, so the registry returns its instance. *)
Theorem discovery_bridge_gets_inquiry_module (flags : InitFlags)
  (s s' : Stack) (tr : list Event) :
  StartEverything flags s = Ret tt s' tr ->
  GdCoreEnabled flags = true ->
  mem InquiryModule (StartEverything_modules flags) = true
  /\ exists b,
       btm_ s' = Some b
       /\ btm_inquiry b = Some (mkInstance InquiryModule).
Proof.
  intros H Hcore.
  assert (Hmem : mem InquiryModule (StartEverything_modules flags) = true).
  { destruct flags as [hci ctl acl sec core]. cbn in Hcore. subst core.
    destruct hci, ctl, acl, sec; reflexivity. }
  split; [exact Hmem |].
  apply StartEverything_Ret in H.
  destruct H as (_ & order & Hres & _ & -> & _).
  cbn [StartEverything_state btm_]. rewrite Hcore.
  eexists. split; [reflexivity |]. cbn [btm_inquiry].
  unfold GetInstance. cbn [started_modules].
  replace (mem InquiryModule (started_modules (stack_manager_ s) ++ order))
    with true; [reflexivity |].
  symmetry. apply mem_In. apply in_or_app. right.
  apply (resolve_In _ _ Hres). apply mem_In. exact Hmem.
Qed.

Lemma precedes_app_r (e1 e2 : Event) (l r : list Event) :
  precedes e1 e2 r = true -> precedes e1 e2 (l ++ r) = true.
Proof.
  intros H. induction l as [|x l IH]; [exact H |].
  cbn [app precedes]. rewrite IH. apply orb_true_r.
Qed.

Lemma not_In_around_starts (e : Event) (pre post : list Event)
  (order : list ModuleId) :
  (forall m, e <> EvModuleStart m) ->
  ~ In e pre -> ~ In e post ->
  ~ In e (pre ++ map EvModuleStart order ++ post).
Proof.
  intros He Hpre Hpost H.
  apply in_app_or in H. destruct H as [H | H]; [tauto |].
  apply in_app_or in H. destruct H as [H | H]; [| tauto].
  apply In_starts in H. destruct H as [m H]. exact (He m H).
Qed.

(** X13.  [StartEverything] tells the HCI shim that reset is complete
    exactly on the runs that return with the core toggle off, and only
    after the running flag is set, so that the accessors the shim calls
    find the stack Running.  A run that aborts never sends the notice. *)
Theorem reset_complete_notice_follows_running_flag (flags : InitFlags)
  (s : Stack) :
  (In EvHciOnResetComplete (trace_of (StartEverything flags s))
   <-> GdCoreEnabled flags = false
       /\ exists s' tr, StartEverything flags s = Ret tt s' tr)
  /\ (In EvHciOnResetComplete (trace_of (StartEverything flags s)) ->
      precedes (EvSetRunning true) EvHciOnResetComplete
               (trace_of (StartEverything flags s)) = true).
Proof.
  assert (Hnot : forall post order,
             ~ In EvHciOnResetComplete post ->
             ~ In EvHciOnResetComplete
                 ([EvLock; EvThreadNew;
                   EvStartUp (StartEverything_modules flags)]
                  ++ map EvModuleStart order ++ post)).
  { intros post order Hpost. apply not_In_around_starts.
    - intros m. discriminate.
    - cbn. intuition discriminate.
    - exact Hpost. }
  destruct (is_running_ s) eqn:Hrun.
  { rewrite (StartEverything_running _ _ Hrun). cbn [trace_of In].
    split; [split |].
    - intros [H | []]. discriminate.
    - intros [_ (s' & tr & H)]. discriminate.
    - intros [H | []]. discriminate. }
  rewrite (StartEverything_idle _ _ Hrun). cbv zeta.
  destruct (resolve (StartEverything_modules flags)) as [e | order].
  { cbn [trace_of In]. split; [split |].
    - intros H. exfalso. intuition discriminate.
    - intros [_ (s' & tr & H)]. discriminate.
    - intros H. exfalso. intuition discriminate. }
  destruct (forallb onStart order); cbn [negb].
  2:{ cbn [trace_of]. split; [split |].
      - intros H. exfalso.
        rewrite <- (app_nil_r (map EvModuleStart (attempted order))) in H.
        exact (Hnot [] _ (fun F => F) H).
      - intros [_ (s' & tr & H)]. discriminate.
      - intros H. exfalso.
        rewrite <- (app_nil_r (map EvModuleStart (attempted order))) in H.
        exact (Hnot [] _ (fun F => F) H). }
  unfold Start_steps.
  destruct (is_some (GetInstance StorageModule _)); cbn [negb].
  2:{ cbn [trace_of]. rewrite <- !app_assoc. split; [split |].
      - intros H. exfalso. revert H. apply Hnot. cbn. intuition discriminate.
      - intros [_ (s' & tr & H)]. discriminate.
      - intros H. exfalso. revert H. apply Hnot. cbn. intuition discriminate. }
  destruct (is_some (GetInstance Dumpsys _)); cbn [negb].
  2:{ cbn [trace_of]. rewrite <- !app_assoc. split; [split |].
      - intros H. exfalso. revert H. apply Hnot. cbn. intuition discriminate.
      - intros [_ (s' & tr & H)]. discriminate.
      - intros H. exfalso. revert H. apply Hnot. cbn. intuition discriminate. }
  destruct (GdCoreEnabled flags) eqn:Hcore; cbn [andb].
  - destruct (is_some (GetInstance L2cap _)); cbn [negb trace_of].
    + unfold StartEverything_steps. rewrite Hcore.
      split; [split |].
      * intros H. exfalso. revert H. apply Hnot.
        destruct (GdAclEnabled flags); cbn; intuition discriminate.
      * intros [H _]. discriminate.
      * intros H. exfalso. revert H. apply Hnot.
        destruct (GdAclEnabled flags); cbn; intuition discriminate.
    + rewrite <- !app_assoc. split; [split |].
      * intros H. exfalso. revert H. apply Hnot. cbn. intuition discriminate.
      * intros [H _]. discriminate.
      * intros H. exfalso. revert H. apply Hnot. cbn. intuition discriminate.
  - cbn [trace_of]. unfold StartEverything_steps. rewrite Hcore.
    split; [split |].
    + intros _. split; [reflexivity | eauto].
    + intros _. apply in_or_app. right. apply in_or_app. right.
      destruct (GdAclEnabled flags); cbn; tauto.
    + intros _. apply precedes_app_r. apply precedes_app_r.
      destruct (GdAclEnabled flags); reflexivity.
Qed.

End Registry.

(** ** The operations on the sample collaborators *)

Example resolve_sample :
  resolve sample_dependencies
    [AclManager; StorageModule; Controller; HciLayer; StorageModule; HciHal]
  = inr [StorageModule; HciHal; HciLayer; Controller; AclManager].
Proof. reflexivity. Qed.

Example resolve_cycle :
  resolve (fun m => match m with
                    | HciHal => [HciLayer]
                    | HciLayer => [HciHal]
                    | _ => []
                    end)
    [HciHal; HciLayer; Dumpsys]
  = inl CyclicDependency.
Proof. reflexivity. Qed.

Example resolve_unsatisfied :
  resolve sample_dependencies [AclManager] = inl UnsatisfiedDependency.
Proof. reflexivity. Qed.

Example StartEverything_hci_only :
  StartEverything sample_dependencies always_starts hci_only initial
  = Ret tt hci_only_example
      [EvLock; EvThreadNew;
       EvStartUp [HciHal; HciLayer; StorageModule; Dumpsys];
       EvModuleStart HciHal; EvModuleStart HciLayer;
       EvModuleStart StorageModule; EvModuleStart Dumpsys; EvHandlerNew;
       EvGetInstance StorageModule; EvGetInstance Dumpsys;
       EvSetRunning true; EvHciOnResetComplete; EvUnlock].
Proof. reflexivity. Qed.

Example StartEverything_hci_and_acl :
  StartEverything sample_dependencies always_starts hci_and_acl initial
  = Ret tt running_example
      [EvLock; EvThreadNew;
       EvStartUp [HciHal; HciLayer; StorageModule; Dumpsys; Controller;
                  AclManager];
       EvModuleStart HciHal; EvModuleStart HciLayer;
       EvModuleStart StorageModule; EvModuleStart Dumpsys;
       EvModuleStart Controller; EvModuleStart AclManager; EvHandlerNew;
       EvGetInstance StorageModule; EvGetInstance Dumpsys; EvAclNew;
       EvSetRunning true; EvHciOnResetComplete; EvUnlock].
Proof. reflexivity. Qed.

Example StartEverything_core_only :
  StartEverything no_dependencies always_starts core_only initial
  = Abort "GetInstance != nullptr"
      [EvLock; EvThreadNew;
       EvStartUp [AttModule; LeAdvertisingManager; LeScanningManager;
                  L2capClassicModule; L2capLeModule; ConnectabilityModule;
                  DiscoverabilityModule; InquiryModule; NameModule;
                  NameDbModule; PageModule; ScanModule; StorageModule;
                  L2cap];
       EvModuleStart AttModule; EvModuleStart LeAdvertisingManager;
       EvModuleStart LeScanningManager; EvModuleStart L2capClassicModule;
       EvModuleStart L2capLeModule; EvModuleStart ConnectabilityModule;
       EvModuleStart DiscoverabilityModule; EvModuleStart InquiryModule;
       EvModuleStart NameModule; EvModuleStart NameDbModule;
       EvModuleStart PageModule; EvModuleStart ScanModule;
       EvModuleStart StorageModule; EvModuleStart L2cap; EvHandlerNew;
       EvGetInstance StorageModule; EvGetInstance Dumpsys].
Proof. reflexivity. Qed.

Lemma Reachable_hci_only_example :
  Reachable sample_dependencies always_starts hci_only_example.
Proof.
  eapply Reachable_StartEverything with (flags := hci_only) (s := initial).
  - apply Reachable_initial.
  - reflexivity.
Defined.

Lemma Reachable_running_example :
  Reachable sample_dependencies always_starts running_example.
Proof.
  eapply Reachable_StartEverything with (flags := hci_and_acl) (s := initial).
  - apply Reachable_initial.
  - reflexivity.
Defined.

Example Stop_running_example :
  Stop hci_and_acl running_example
  = Ret tt initial
      [EvLock; EvHciOnShuttingDown; EvSetRunning false;
       EvAclDelete (Some (mkAcl (Some example_handler))); EvBtmDelete None;
       EvHandlerClear []; EvShutDown;
       EvModuleStop AclManager; EvModuleStop Controller;
       EvModuleStop Dumpsys; EvModuleStop StorageModule;
       EvModuleStop HciLayer; EvModuleStop HciHal;
       EvHandlerDelete; EvThreadStop; EvThreadDelete; EvUnlock].
Proof. reflexivity. Qed.

(** C1, as the spec words it, fails: on the stack started under
    [hci_and_acl], [Stop] clears the running flag before it touches the
    bridges, not after joining the thread. *)
Lemma Stop_marks_idle_last_fails :
  Stop hci_and_acl running_example
  = Ret tt initial
      [EvLock; EvHciOnShuttingDown; EvSetRunning false;
       EvAclDelete (Some (mkAcl (Some example_handler))); EvBtmDelete None;
       EvHandlerClear []; EvShutDown;
       EvModuleStop AclManager; EvModuleStop Controller;
       EvModuleStop Dumpsys; EvModuleStop StorageModule;
       EvModuleStop HciLayer; EvModuleStop HciHal;
       EvHandlerDelete; EvThreadStop; EvThreadDelete; EvUnlock]
  /\ Stop_marks_idle_last running_example example_handler
       (trace_of (Stop hci_and_acl running_example)) = false
  /\ precedes (EvSetRunning false) EvThreadStop
       (trace_of (Stop hci_and_acl running_example)) = true.
Proof. repeat split. Qed.

(** The order the predicate asks for is one a trace can have. *)
Example Stop_marks_idle_last_possible :
  Stop_marks_idle_last running_example example_handler
    [EvLock; EvAclDelete (Some (mkAcl (Some example_handler)));
     EvBtmDelete None; EvHandlerClear []; EvShutDown; EvThreadStop;
     EvSetRunning false; EvUnlock]
  = true.
Proof. reflexivity. Qed.

(** ** The claims on the sample collaborators *)

Lemma Stop_teardown_order_witness :
  is_running_ running_example = true
  /\ exists h,
       stack_handler_ running_example = Some h
       /\ Stop hci_and_acl running_example
          = Ret tt initial (Stop_steps hci_and_acl running_example h)
       /\ precedes (EvSetRunning false) (EvAclDelete (acl_ running_example))
            (Stop_steps hci_and_acl running_example h) = true.
Proof.
  split; [reflexivity |].
  apply (Stop_teardown_order sample_dependencies always_starts
           hci_and_acl running_example).
  - exact Reachable_running_example.
  - reflexivity.
Defined.


Lemma protocol_violations_abort_witness :
  (StartEverything sample_dependencies always_starts hci_only running_example
   = Abort "StartEverything Gd stack already running" [EvLock]
   /\ StartIdleMode sample_dependencies always_starts running_example
      = Abort "StartIdleMode Gd stack already running" [EvLock])
  /\ Stop hci_only initial
     = Abort "Stop Gd stack not running" [EvLock; EvHciOnShuttingDown].
Proof.
  split.
  - apply (proj1 (protocol_violations_abort sample_dependencies always_starts
                    hci_only running_example)).
    reflexivity.
  - apply (proj2 (protocol_violations_abort sample_dependencies always_starts
                    hci_only initial)).
    reflexivity.
Defined.

Lemma accessors_abort_when_not_running_witness :
  is_running_ initial = false
  /\ GetStackManager initial = Abort "is_running_" [EvLock]
  /\ GetAcl initial = Abort "is_running_" [EvLock]
  /\ GetBtm initial = Abort "is_running_" [EvLock]
  /\ GetHandler initial = Abort "is_running_" [EvLock]
  /\ forall m, GetModule m initial = Abort "is_running_" [EvLock].
Proof.
  split; [reflexivity |].
  apply (accessors_abort_when_not_running initial). reflexivity.
Defined.

Lemma IsRunning_follows_start_stop_witness :
  IsRunning running_example = Ret true running_example [EvLock; EvUnlock]
  /\ IsRunning initial = Ret false initial [EvLock; EvUnlock].
Proof.
  destruct (IsRunning_follows_start_stop sample_dependencies always_starts)
    as (_ & _ & _ & Hstart & Hstop).
  split.
  - eapply (Hstart hci_and_acl initial running_example). reflexivity.
  - eapply (Hstop hci_and_acl running_example initial). reflexivity.
Defined.

Lemma hci_only_storage_without_acl_manager_witness :
  (forall m,
     In m (started_modules (stack_manager_ hci_only_example))
     <-> In m [HciHal; HciLayer; StorageModule; Dumpsys])
  /\ GetModule StorageModule hci_only_example
     = Ret (Some (mkInstance StorageModule)) hci_only_example
         [EvLock; EvUnlock]
  /\ GetModule AclManager hci_only_example
     = Ret None hci_only_example [EvLock; EvUnlock].
Proof.
  eapply (hci_only_storage_without_acl_manager sample_dependencies
            always_starts initial hci_only_example).
  - apply Reachable_initial.
  - reflexivity.
Defined.

Lemma StartIdleMode_storage_only_witness :
  is_running_ initial = false
  /\ StartIdleMode sample_dependencies always_starts initial
     = Ret tt (StartIdleMode_state [StorageModule] initial)
         StartIdleMode_steps
  /\ StartIdleMode sample_dependencies always_starts running_example
     = Abort "StartIdleMode Gd stack already running" [EvLock].
Proof.
  split; [reflexivity |]. split.
  - apply (proj2 (StartIdleMode_storage_only sample_dependencies
                    always_starts initial));
      reflexivity.
  - apply (proj1 (StartIdleMode_storage_only sample_dependencies
                    always_starts running_example)).
    reflexivity.
Defined.

Lemma StartEverything_aborts_without_hci_witness :
  GdHciEnabled core_only = false
  /\ mem Dumpsys (StartEverything_modules core_only) = false
  /\ (exists msg tr,
        StartEverything no_dependencies always_starts core_only initial
        = Abort msg tr).
Proof.
  split; [reflexivity |].
  destruct (StartEverything_aborts_without_hci no_dependencies always_starts
              core_only initial (Reachable_initial _ _) eq_refl)
    as (Hmem & Habort & _).
  split; assumption.
Defined.


Lemma bridge_accessors_return_null_witness :
  GetBtm hci_only_example = Ret None hci_only_example [EvLock; EvUnlock]
  /\ GetAcl hci_only_example = Ret None hci_only_example [EvLock; EvUnlock]
  /\ GetBtm running_example = Ret None running_example [EvLock; EvUnlock].
Proof.
  destruct (bridge_accessors_return_null sample_dependencies always_starts)
    as (Hslot & Hstart & _).
  destruct (Hstart hci_only initial hci_only_example
              (trace_of (StartEverything sample_dependencies always_starts
                           hci_only initial))
              (Reachable_initial _ _) eq_refl)
    as (Hbtm & Hacl).
  split; [apply Hbtm; reflexivity |].
  split; [apply Hacl; left; reflexivity |].
  apply (proj2 (Hslot running_example eq_refl)).
Defined.

(** ** The further properties on the sample collaborators *)

Lemma storage_registered_twice_witness :
  count_occ ModuleId_eq_dec (StartEverything_modules everything) StorageModule
  = 2
  /\ count_occ ModuleId_eq_dec (StartEverything_modules everything) Dumpsys
     <= 1
  /\ NoDup (StartEverything_modules hci_and_acl).
Proof.
  destruct (storage_registered_twice everything) as (Hcount & Hothers & _).
  destruct (storage_registered_twice hci_and_acl) as (_ & _ & Hnodup).
  split; [exact Hcount |]. split.
  - apply Hothers. discriminate.
  - apply Hnodup. reflexivity.
Defined.

Lemma shutting_down_notice_precedes_running_check_witness :
  GdCoreEnabled hci_only = false
  /\ exists rest,
       trace_of (Stop hci_only initial)
       = EvLock :: EvHciOnShuttingDown :: rest
       /\ ~ In EvHciOnShuttingDown rest.
Proof.
  split; [reflexivity |].
  apply (proj2 (shutting_down_notice_precedes_running_check hci_only initial)).
  reflexivity.
Defined.

Lemma Start_leaves_flag_to_caller_witness :
  Start sample_dependencies always_starts [StorageModule] running_example
  = Abort "Start Gd stack already running" []
  /\ exists s',
       Start sample_dependencies always_starts [StorageModule] initial
       = Ret tt s' [EvThreadNew; EvStartUp [StorageModule];
                    EvModuleStart StorageModule; EvHandlerNew]
       /\ is_running_ s' = false
       /\ GetHandler s' = Abort "is_running_" [EvLock].
Proof.
  destruct (Start_leaves_flag_to_caller sample_dependencies always_starts
              [StorageModule] running_example) as [Hrun _].
  destruct (Start_leaves_flag_to_caller sample_dependencies always_starts
              [StorageModule] initial) as [_ Hret].
  split; [apply Hrun; reflexivity |].
  eexists. split; [reflexivity |].
  edestruct Hret as (Hflag & _ & _ & _ & _ & Hget & _); [reflexivity |].
  split; [exact Hflag | exact Hget].
Defined.

Lemma start_and_stop_alternate_witness :
  StartIdleMode sample_dependencies always_starts running_example
  = Abort "StartIdleMode Gd stack already running" [EvLock]
  /\ Stop everything initial = Abort "Stop Gd stack not running" [EvLock].
Proof.
  destruct (start_and_stop_alternate sample_dependencies always_starts)
    as (Hstart & _ & Hstop).
  split.
  - apply (proj2 (Hstart hci_and_acl hci_only initial running_example
                    (trace_of (StartEverything sample_dependencies
                                 always_starts hci_and_acl initial))
                    eq_refl)).
  - apply (proj1 (Hstop hci_and_acl everything running_example initial
                    (trace_of (Stop hci_and_acl running_example))
                    eq_refl)).
Defined.

Lemma Stop_restores_the_state_before_start_witness :
  Stop everything running_example
  = Ret tt initial
      (Stop_steps everything running_example
         (mkHandler (Some gd_stack_thread) []))
  /\ initial = mkStack false None None None None (mkManager []).
Proof.
  eapply (Stop_restores_the_state_before_start sample_dependencies
            always_starts hci_and_acl everything initial running_example).
  - apply Reachable_initial.
  - left. reflexivity.
Defined.

Lemma GetHandler_never_null_when_running_witness :
  stack_thread_ running_example = Some gd_stack_thread
  /\ exists queue,
       GetHandler running_example
       = Ret (Some (mkHandler (stack_thread_ running_example) queue))
           running_example [EvLock; EvUnlock].
Proof.
  apply (GetHandler_never_null_when_running sample_dependencies always_starts
           running_example).
  - exact Reachable_running_example.
  - reflexivity.
Defined.

Lemma leaf_modules_found_after_start_witness :
  GetModule StorageModule hci_only_example
  = Ret (Some (mkInstance StorageModule)) hci_only_example [EvLock; EvUnlock]
  /\ GetModule Dumpsys hci_only_example
     = Ret (Some (mkInstance Dumpsys)) hci_only_example [EvLock; EvUnlock]
  /\ (GdCoreEnabled hci_only = true ->
      GetModule L2cap hci_only_example
      = Ret (Some (mkInstance L2cap)) hci_only_example [EvLock; EvUnlock]).
Proof.
  eapply (leaf_modules_found_after_start sample_dependencies always_starts
            hci_only initial hci_only_example).
  reflexivity.
Defined.

Lemma bridges_share_the_stack_handler_witness :
  exists a,
    GetAcl running_example = Ret (Some a) running_example [EvLock; EvUnlock]
    /\ GetHandler running_example
       = Ret (acl_handler a) running_example [EvLock; EvUnlock]
    /\ acl_handler a <> None.
Proof.
  apply (proj2 (bridges_share_the_stack_handler sample_dependencies
                  always_starts hci_and_acl initial running_example
                  (trace_of (StartEverything sample_dependencies
                               always_starts hci_and_acl initial))
                  eq_refl));
    reflexivity.
Defined.

Lemma discovery_bridge_gets_inquiry_module_witness :
  mem InquiryModule (StartEverything_modules everything) = true
  /\ exists b,
       btm_ everything_example = Some b
       /\ btm_inquiry b = Some (mkInstance InquiryModule).
Proof.
  apply (discovery_bridge_gets_inquiry_module sample_dependencies
           always_starts everything initial everything_example
           (trace_of (StartEverything sample_dependencies always_starts
                        everything initial))).
  - vm_compute. reflexivity.
  - reflexivity.
Defined.

Lemma reset_complete_notice_follows_running_flag_witness :
  In EvHciOnResetComplete
     (trace_of (StartEverything sample_dependencies always_starts hci_only
                  initial))
  /\ precedes (EvSetRunning true) EvHciOnResetComplete
       (trace_of (StartEverything sample_dependencies always_starts hci_only
                    initial))
     = true.
Proof.
  destruct (reset_complete_notice_follows_running_flag sample_dependencies
              always_starts hci_only initial) as [Hiff Hafter].
  assert (H : In EvHciOnResetComplete
                (trace_of (StartEverything sample_dependencies always_starts
                             hci_only initial))).
  { apply Hiff. split; [reflexivity |]. eexists. eexists. reflexivity. }
  split; [exact H | exact (Hafter H)].
Defined.
